(** * Chrono vehicle subsystems: powertrain, driveline, vehicle assembly,
      suspension hardpoints

    A shallow embedding of the C++ sources

    - [subsys/powertrain/ChSimplePowertrain.cpp], [SimplePowertrain.h]
    - [subsys/driveline/ChShaftsDriveline2WD.cpp]
    - [models/hmmwv/vehicle/HMMWV_VehicleSolidAxle.cpp]
    - [subsys/suspension/ChSolidAxle.h], [ChDoubleWishboneReduced.h]
    - [tests/joints/test_spherical.cpp] (the simulation loop and [main])

    and the properties of the vehicle specification that concern them.

    Numbers.  The laws of the arithmetic are proved over exact rationals: a
    C++ [double] is a [Q], without rounding, infinities or NaN.  [Q]'s
    quotient is total ([x / 0 == 0]) whereas the C++ quotient by zero is
    infinite or NaN, so a statement that depends on the value of a quotient
    carries the hypothesis that its divisor is not zero.  Equality of
    computed numbers is [Qeq] ([==]); equality of untouched fields is Leibniz
    equality.  Modules [Binary64] and [SphericalTest64] embed the powertrain
    and the simulation loop a second time, over IEEE 754 binary64 numbers
    (the kernel's floats), to run the code on concrete doubles. *)

From Stdlib Require Import QArith Qabs Qround Lqa ZArith List Lia Bool.
From Stdlib Require Import PrimFloat.
From Stdlib Require String.
Import ListNotations.

Local Open Scope Q_scope.

Abbreviation double := Q.

(** [ChVector<>] and [ChQuaternion<>]: plain structs of doubles. *)
Record ChVector : Set := { vx : double; vy : double; vz : double }.
Record ChQuaternion : Set :=
  { e0 : double; e1 : double; e2 : double; e3 : double }.

(** [ChSuspension::Side]. *)
Inductive Side : Set := LEFT | RIGHT.

(** Modelled from the spec: the enumeration [ChWheelId] is declared in a
    header that is not among the sources.  Spec 3: "WheelId: {FRONT_LEFT,
    FRONT_RIGHT, REAR_LEFT, REAR_RIGHT}, used as a dense 4-way key", and
    spec 8: "Invalid WheelId (value 4)".  A C++ enumeration value is an
    integer, so an identifier is an integer here and the four enumerators
    are the keys 0..3, in the order of the spec. *)
Definition ChWheelId : Set := Z.
Definition FRONT_LEFT  : ChWheelId := 0%Z.
Definition FRONT_RIGHT : ChWheelId := 1%Z.
Definition REAR_LEFT   : ChWheelId := 2%Z.
Definition REAR_RIGHT  : ChWheelId := 3%Z.

(** The four valid wheel values. *)
Definition valid_wheel (which : ChWheelId) : Prop :=
  which = FRONT_LEFT \/ which = FRONT_RIGHT \/
  which = REAR_LEFT \/ which = REAR_RIGHT.

(** A [ChSharedPtr<T>] is null or points to an object. *)
Definition ChSharedPtr (T : Type) : Type := option T.
Definition null {T : Type} : ChSharedPtr T := None.

Definition non_null {T : Type} (ptr : ChSharedPtr T) : bool :=
  match ptr with Some _ => true | None => false end.

(** The four-way [switch (which)] that every per-wheel dispatch of the
    sources repeats: one [case] per enumerator, in the order FRONT_LEFT,
    FRONT_RIGHT, REAR_LEFT, REAR_RIGHT, then [default]. *)
Definition switch_wheel {A : Type} (which : ChWheelId)
  (case_FL case_FR case_RL case_RR default : A) : A :=
  if (which =? FRONT_LEFT)%Z then case_FL
  else if (which =? FRONT_RIGHT)%Z then case_FR
  else if (which =? REAR_LEFT)%Z then case_RL
  else if (which =? REAR_RIGHT)%Z then case_RR
  else default.

(* ================================================================== *)
(** * Powertrain: [ChSimplePowertrain] *)
(* ================================================================== *)

Module Powertrain.

(** [ChPowertrain::DriveMode], the three labels of the switch in
    [SetDriveMode]. *)
Inductive DriveMode : Set := FORWARD | REVERSE | NEUTRAL.

(** The data members of [SimplePowertrain] (SimplePowertrain.h); the four
    virtual getters of the template read them. *)
Record SimplePowertrain : Set := {
  m_fwd_gear_ratio : double;  (* forward gear ratio (single gear transmission) *)
  m_rev_gear_ratio : double;  (* reverse gear ratio *)
  m_max_torque     : double;  (* maximum motor torque *)
  m_max_speed      : double   (* maximum motor speed *)
}.

Definition GetForwardGearRatio (p : SimplePowertrain) : double := m_fwd_gear_ratio p.
Definition GetReverseGearRatio (p : SimplePowertrain) : double := m_rev_gear_ratio p.
Definition GetMaxTorque (p : SimplePowertrain) : double := m_max_torque p.
Definition GetMaxSpeed (p : SimplePowertrain) : double := m_max_speed p.

(** The mutable members of [ChSimplePowertrain] (with [m_drive_mode] of its
    base class). *)
Record ChSimplePowertrain : Set := {
  m_drive_mode         : DriveMode;
  m_current_gear_ratio : double;
  m_motorSpeed         : double;
  m_motorTorque        : double;
  m_shaftTorque        : double
}.

(** One assignment to one member. *)
Definition set_drive_mode (pt : ChSimplePowertrain) (v : DriveMode) :=
  {| m_drive_mode := v;
     m_current_gear_ratio := m_current_gear_ratio pt;
     m_motorSpeed := m_motorSpeed pt;
     m_motorTorque := m_motorTorque pt;
     m_shaftTorque := m_shaftTorque pt |}.

Definition set_current_gear_ratio (pt : ChSimplePowertrain) (v : double) :=
  {| m_drive_mode := m_drive_mode pt;
     m_current_gear_ratio := v;
     m_motorSpeed := m_motorSpeed pt;
     m_motorTorque := m_motorTorque pt;
     m_shaftTorque := m_shaftTorque pt |}.

Definition set_motorSpeed (pt : ChSimplePowertrain) (v : double) :=
  {| m_drive_mode := m_drive_mode pt;
     m_current_gear_ratio := m_current_gear_ratio pt;
     m_motorSpeed := v;
     m_motorTorque := m_motorTorque pt;
     m_shaftTorque := m_shaftTorque pt |}.

Definition set_motorTorque (pt : ChSimplePowertrain) (v : double) :=
  {| m_drive_mode := m_drive_mode pt;
     m_current_gear_ratio := m_current_gear_ratio pt;
     m_motorSpeed := m_motorSpeed pt;
     m_motorTorque := v;
     m_shaftTorque := m_shaftTorque pt |}.

Definition set_shaftTorque (pt : ChSimplePowertrain) (v : double) :=
  {| m_drive_mode := m_drive_mode pt;
     m_current_gear_ratio := m_current_gear_ratio pt;
     m_motorSpeed := m_motorSpeed pt;
     m_motorTorque := m_motorTorque pt;
     m_shaftTorque := v |}.

Section Template.

(** The concrete model behind the template's pure virtual getters. *)
Variable p : SimplePowertrain.

(** [ChSimplePowertrain::ChSimplePowertrain()]: the three outputs start at
    zero.  The constructor leaves [m_current_gear_ratio] unset and
    [m_drive_mode] to the base class; both are arguments here. *)
Definition Construct (mode : DriveMode) (ratio : double) : ChSimplePowertrain :=
  {| m_drive_mode := mode;
     m_current_gear_ratio := ratio;
     m_motorSpeed := 0;
     m_motorTorque := 0;
     m_shaftTorque := 0 |}.

(** [ChSimplePowertrain::Initialize]. *)
Definition Initialize (pt : ChSimplePowertrain) : ChSimplePowertrain :=
  set_current_gear_ratio pt (GetForwardGearRatio p).

(** [ChSimplePowertrain::SetDriveMode]. *)
Definition SetDriveMode (pt : ChSimplePowertrain) (mode : DriveMode)
  : ChSimplePowertrain :=
  let pt := set_drive_mode pt mode in
  match mode with
  | FORWARD => set_current_gear_ratio pt (GetForwardGearRatio p)
  | REVERSE => set_current_gear_ratio pt (GetReverseGearRatio p)
  | NEUTRAL => set_current_gear_ratio pt 1e20
  end.

(** [ChSimplePowertrain::Update], one [let] per assignment of the body. *)
Definition Update (pt : ChSimplePowertrain) (time throttle shaft_speed : double)
  : ChSimplePowertrain :=
  (* The motorspeed is the shaft speed multiplied by gear ratio inversed *)
  let pt := set_motorSpeed pt (shaft_speed / m_current_gear_ratio pt) in
  (* The torque depends on speed-torque curve of the motor *)
  let pt := set_motorTorque pt
              (GetMaxTorque p - m_motorSpeed pt * (GetMaxTorque p / GetMaxSpeed p)) in
  (* Motor torque is linearly modulated by throttle gas value *)
  let pt := set_motorTorque pt (m_motorTorque pt * throttle) in
  (* The torque at motor shaft *)
  set_shaftTorque pt (m_motorTorque pt / m_current_gear_ratio pt).

(** A driver's step: the three arguments of one [Update] call. *)
Definition step : Set := (double * double * double)%type.

Definition Update_step (pt : ChSimplePowertrain) (s : step) : ChSimplePowertrain :=
  let '(time, throttle, shaft_speed) := s in Update pt time throttle shaft_speed.

(** A sequence of [Update] calls, first call first. *)
Definition Updates (pt : ChSimplePowertrain) (calls : list step)
  : ChSimplePowertrain :=
  fold_left Update_step calls pt.

(** The same calls at other times: [clock] maps the time of each call. *)
Definition retime (clock : double -> double) (calls : list step) : list step :=
  map (fun s : step => let '(time, throttle, shaft_speed) := s in
                       (clock time, throttle, shaft_speed)) calls.

(** The state that [SetDriveMode(NEUTRAL)] followed by the [Update] calls
    [calls] leaves. *)
Definition after_neutral (pt : ChSimplePowertrain) (calls : list step)
  : ChSimplePowertrain :=
  Updates (SetDriveMode pt NEUTRAL) calls.

End Template.

(** The powertrain of the specification's end-to-end scenario: forward ratio
    4.0, maximum torque 300 N.m, maximum speed 600 rad/s. *)
Definition scenario : SimplePowertrain :=
  {| m_fwd_gear_ratio := 4;
     m_rev_gear_ratio := -4;
     m_max_torque := 300;
     m_max_speed := 600 |}.

Definition scenario_start : ChSimplePowertrain :=
  Initialize scenario (Construct FORWARD 0).

End Powertrain.

(* ================================================================== *)
(** * Powertrain over binary64: [ChSimplePowertrain] on doubles *)
(* ================================================================== *)

Module Binary64.

Local Open Scope float_scope.

(** The data members of [SimplePowertrain] (SimplePowertrain.h). *)
Record SimplePowertrain : Set := {
  m_fwd_gear_ratio : float;
  m_rev_gear_ratio : float;
  m_max_torque     : float;
  m_max_speed      : float
}.

Definition GetForwardGearRatio (p : SimplePowertrain) : float := m_fwd_gear_ratio p.
Definition GetReverseGearRatio (p : SimplePowertrain) : float := m_rev_gear_ratio p.
Definition GetMaxTorque (p : SimplePowertrain) : float := m_max_torque p.
Definition GetMaxSpeed (p : SimplePowertrain) : float := m_max_speed p.

(** The mutable members of [ChSimplePowertrain]. *)
Record ChSimplePowertrain : Set := {
  m_drive_mode         : Powertrain.DriveMode;
  m_current_gear_ratio : float;
  m_motorSpeed         : float;
  m_motorTorque        : float;
  m_shaftTorque        : float
}.

Definition set_drive_mode (pt : ChSimplePowertrain) (v : Powertrain.DriveMode) :=
  {| m_drive_mode := v;
     m_current_gear_ratio := m_current_gear_ratio pt;
     m_motorSpeed := m_motorSpeed pt;
     m_motorTorque := m_motorTorque pt;
     m_shaftTorque := m_shaftTorque pt |}.

Definition set_current_gear_ratio (pt : ChSimplePowertrain) (v : float) :=
  {| m_drive_mode := m_drive_mode pt;
     m_current_gear_ratio := v;
     m_motorSpeed := m_motorSpeed pt;
     m_motorTorque := m_motorTorque pt;
     m_shaftTorque := m_shaftTorque pt |}.

Definition set_motorSpeed (pt : ChSimplePowertrain) (v : float) :=
  {| m_drive_mode := m_drive_mode pt;
     m_current_gear_ratio := m_current_gear_ratio pt;
     m_motorSpeed := v;
     m_motorTorque := m_motorTorque pt;
     m_shaftTorque := m_shaftTorque pt |}.

Definition set_motorTorque (pt : ChSimplePowertrain) (v : float) :=
  {| m_drive_mode := m_drive_mode pt;
     m_current_gear_ratio := m_current_gear_ratio pt;
     m_motorSpeed := m_motorSpeed pt;
     m_motorTorque := v;
     m_shaftTorque := m_shaftTorque pt |}.

Definition set_shaftTorque (pt : ChSimplePowertrain) (v : float) :=
  {| m_drive_mode := m_drive_mode pt;
     m_current_gear_ratio := m_current_gear_ratio pt;
     m_motorSpeed := m_motorSpeed pt;
     m_motorTorque := m_motorTorque pt;
     m_shaftTorque := v |}.

Section Template.

Variable p : SimplePowertrain.

(** [ChSimplePowertrain::ChSimplePowertrain()]. *)
Definition Construct (mode : Powertrain.DriveMode) (ratio : float)
  : ChSimplePowertrain :=
  {| m_drive_mode := mode;
     m_current_gear_ratio := ratio;
     m_motorSpeed := 0;
     m_motorTorque := 0;
     m_shaftTorque := 0 |}.

(** [ChSimplePowertrain::Initialize]. *)
Definition Initialize (pt : ChSimplePowertrain) : ChSimplePowertrain :=
  set_current_gear_ratio pt (GetForwardGearRatio p).

(** [ChSimplePowertrain::SetDriveMode]. *)
Definition SetDriveMode (pt : ChSimplePowertrain) (mode : Powertrain.DriveMode)
  : ChSimplePowertrain :=
  let pt := set_drive_mode pt mode in
  match mode with
  | Powertrain.FORWARD => set_current_gear_ratio pt (GetForwardGearRatio p)
  | Powertrain.REVERSE => set_current_gear_ratio pt (GetReverseGearRatio p)
  | Powertrain.NEUTRAL => set_current_gear_ratio pt 1e20
  end.

(** [ChSimplePowertrain::Update]. *)
Definition Update (pt : ChSimplePowertrain) (time throttle shaft_speed : float)
  : ChSimplePowertrain :=
  let pt := set_motorSpeed pt (shaft_speed / m_current_gear_ratio pt) in
  let pt := set_motorTorque pt
              (GetMaxTorque p - m_motorSpeed pt * (GetMaxTorque p / GetMaxSpeed p)) in
  let pt := set_motorTorque pt (m_motorTorque pt * throttle) in
  set_shaftTorque pt (m_motorTorque pt / m_current_gear_ratio pt).

End Template.

(** The C++ comparison [x == y] of two doubles. *)
Definition equal (x y : float) : bool := (x =? y).

(** The scenario of the specification. *)
Definition scenario : SimplePowertrain :=
  {| m_fwd_gear_ratio := 4;
     m_rev_gear_ratio := -4;
     m_max_torque := 300;
     m_max_speed := 600 |}.

(** A motor with maximum torque 1 and maximum speed 49, geared 1:1. *)
Definition motor_49 : SimplePowertrain :=
  {| m_fwd_gear_ratio := 1;
     m_rev_gear_ratio := -1;
     m_max_torque := 1;
     m_max_speed := 49 |}.

(** The scenario motor with a maximum speed of zero. *)
Definition motor_0 : SimplePowertrain :=
  {| m_fwd_gear_ratio := 4;
     m_rev_gear_ratio := -4;
     m_max_torque := 300;
     m_max_speed := 0 |}.

(** A constructed and initialized powertrain: forward gear. *)
Definition start (p : SimplePowertrain) : ChSimplePowertrain :=
  Initialize p (Construct Powertrain.FORWARD 0).

End Binary64.

(* ================================================================== *)
(** * The objects of the physical system that the subsystems hold *)
(* ================================================================== *)

Module Physics.

(** A [ChShaft]: one rotational degree of freedom with a scalar inertia. *)
Record ChShaft : Set := { shaft_name : nat; shaft_inertia : double }.

Definition SetInertia (s : ChShaft) (j : double) : ChShaft :=
  {| shaft_name := shaft_name s; shaft_inertia := j |}.

(** [ChShaftsGearboxAngled]: what [Initialize] and [SetTransmissionRatio]
    store. *)
Record ChShaftsGearboxAngled : Set := {
  gear_shaft1 : ChShaft;
  gear_shaft2 : ChShaft;
  gear_body   : nat;
  gear_dir1   : ChVector;
  gear_dir2   : ChVector;
  gear_ratio  : double
}.

(** [ChShaftsPlanetary]: the three members, the ordinary transmission ratio
    and the reaction torques that the solver reports on the second and third
    member. *)
Record ChShaftsPlanetary : Set := {
  planet_carrier : ChShaft;
  planet_shaft2  : ChShaft;
  planet_shaft3  : ChShaft;
  ratio_ordinary : double;
  GetTorqueReactionOn2 : double;
  GetTorqueReactionOn3 : double
}.

Definition SetTransmissionRatioOrdinary (pl : ChShaftsPlanetary) (t0 : double)
  : ChShaftsPlanetary :=
  {| planet_carrier := planet_carrier pl;
     planet_shaft2 := planet_shaft2 pl;
     planet_shaft3 := planet_shaft3 pl;
     ratio_ordinary := t0;
     GetTorqueReactionOn2 := GetTorqueReactionOn2 pl;
     GetTorqueReactionOn3 := GetTorqueReactionOn3 pl |}.

(** What [ChSystem::Add] collects. *)
Inductive ChPhysicsItem : Set :=
| ItemShaft (s : ChShaft)
| ItemGearbox (g : ChShaftsGearboxAngled)
| ItemPlanetary (pl : ChShaftsPlanetary).

Definition ChSystem : Set := list ChPhysicsItem.

Definition Add (sys : ChSystem) (item : ChPhysicsItem) : ChSystem :=
  sys ++ [item].

(** A [ChBody], as far as the driveline looks at it: its identity and the
    system it is registered with ([GetSystem()], null when it is not). *)
Record ChBody : Type := {
  body_name : nat;
  GetSystem : ChSharedPtr ChSystem
}.

End Physics.

(* ================================================================== *)
(** * Driveline: [ChShaftsDriveline2WD] *)
(* ================================================================== *)

Module Driveline.
Import Physics.

(** How a call ends: it returns, an [assert] fails (the process aborts), or
    a null pointer is dereferenced. *)
Inductive outcome (A : Type) : Type :=
| Returned (a : A)
| AssertionFailed
| NullDereference.
Arguments Returned {A} a.
Arguments AssertionFailed {A}.
Arguments NullDereference {A}.

Definition bind {A B : Type} (c : outcome A) (k : A -> outcome B) : outcome B :=
  match c with
  | Returned a => k a
  | AssertionFailed => AssertionFailed
  | NullDereference => NullDereference
  end.

Notation "x <- c ;; k" := (bind c (fun x => k))
  (at level 61, c at next level, right associativity).
Notation "c ;; k" := (bind c (fun _ => k))
  (at level 61, right associativity).

(** [assert(e)]. *)
Definition assert (e : bool) : outcome unit :=
  if e then Returned tt else AssertionFailed.

(** [ptr->...]. *)
Definition deref {T : Type} (ptr : ChSharedPtr T) : outcome T :=
  match ptr with Some o => Returned o | None => NullDereference end.

(** The constructor arguments and the pure virtual parameters of the
    template that a concrete driveline supplies. *)
Record Driveline2WD : Set := {
  m_dir_motor_block : ChVector;
  m_dir_axle        : ChVector;
  GetDriveshaftInertia      : double;
  GetDifferentialBoxInertia : double;
  GetConicalGearRatio       : double
}.

(** Modelled from the spec: [GetDifferentialRatio] is pure virtual in
    [ChShaftsDriveline2WD.h]; the header and the concrete drivelines that
    implement it are not among the sources.  Spec 4.3: "a three-member
    planetary constraint with ordinary ratio fixed at -1 (the standard
    open-differential relation)"; the comment at the call site agrees: "The
    case of the differential is simple: t0=-1". *)
Definition GetDifferentialRatio (m : Driveline2WD) : double := -1.

(** The members that [Initialize] creates. *)
Record ChShaftsDriveline2WD : Set := {
  m_driveshaft      : ChShaft;
  m_differentialbox : ChShaft;
  m_conicalgear     : ChShaftsGearboxAngled;
  m_differential    : ChShaftsPlanetary
}.

(** [new ChShaft], [new ChShaftsPlanetary]: fresh objects; the name tells the
    two shafts of a driveline apart, a new planetary reports no reaction. *)
Definition new_ChShaft (name : nat) : ChShaft :=
  {| shaft_name := name; shaft_inertia := 1 |}.

(** [ChShaftsGearboxAngled::Initialize] followed by [SetTransmissionRatio]. *)
Definition new_gearbox (s1 s2 : ChShaft) (body : ChBody) (d1 d2 : ChVector)
  (t0 : double) : ChShaftsGearboxAngled :=
  {| gear_shaft1 := s1; gear_shaft2 := s2; gear_body := body_name body;
     gear_dir1 := d1; gear_dir2 := d2; gear_ratio := t0 |}.

(** [ChShaftsPlanetary::Initialize]. *)
Definition new_planetary (carrier s2 s3 : ChShaft) : ChShaftsPlanetary :=
  {| planet_carrier := carrier; planet_shaft2 := s2; planet_shaft3 := s3;
     ratio_ordinary := 1;
     GetTorqueReactionOn2 := 0; GetTorqueReactionOn3 := 0 |}.

(** [ChShaftsDriveline2WD::Initialize]: the four assertions, then the
    driveshaft, the differential box, the conical gear and the differential,
    each added to the system of the chassis. *)
Definition Initialize (m : Driveline2WD)
  (chassis : ChSharedPtr ChBody) (axle_L axle_R : ChSharedPtr ChShaft)
  : outcome (ChShaftsDriveline2WD * ChSystem) :=
  assert (non_null chassis) ;;
  assert (non_null axle_L) ;;
  assert (non_null axle_R) ;;
  body <- deref chassis ;;
  assert (non_null (GetSystem body)) ;;
  my_system <- deref (GetSystem body) ;;
  let driveshaft := SetInertia (new_ChShaft 0) (GetDriveshaftInertia m) in
  let my_system := Add my_system (ItemShaft driveshaft) in
  let differentialbox :=
    SetInertia (new_ChShaft 1) (GetDifferentialBoxInertia m) in
  let my_system := Add my_system (ItemShaft differentialbox) in
  let conicalgear :=
    new_gearbox driveshaft differentialbox body
      (m_dir_motor_block m) (m_dir_axle m) (GetConicalGearRatio m) in
  let my_system := Add my_system (ItemGearbox conicalgear) in
  left <- deref axle_L ;;
  right <- deref axle_R ;;
  let differential :=
    SetTransmissionRatioOrdinary
      (new_planetary differentialbox left right) (GetDifferentialRatio m) in
  let my_system := Add my_system (ItemPlanetary differential) in
  Returned ({| m_driveshaft := driveshaft;
               m_differentialbox := differentialbox;
               m_conicalgear := conicalgear;
               m_differential := differential |}, my_system).

(** The precondition of [Initialize]: the three references are valid and the
    chassis is registered with a physical system. *)
Definition precondition (chassis : ChSharedPtr ChBody)
  (axle_L axle_R : ChSharedPtr ChShaft) : Prop :=
  (exists body, chassis = Some body /\ GetSystem body <> None) /\
  axle_L <> None /\ axle_R <> None.

(** [ChShaftsDriveline2WD::GetWheelTorque]. *)
Definition GetWheelTorque (d : ChShaftsDriveline2WD) (which : ChWheelId)
  : double :=
  switch_wheel which
    0
    0
    (- GetTorqueReactionOn2 (m_differential d))
    (- GetTorqueReactionOn3 (m_differential d))
    (-1).  (* should not happen *)

(** A concrete driveline and the arguments of a valid [Initialize] call, for
    the examples below: a chassis registered with an empty system and the
    two axle shafts of the rear suspension. *)
Definition example_model : Driveline2WD :=
  {| m_dir_motor_block := {| vx := 1; vy := 0; vz := 0 |};
     m_dir_axle := {| vx := 0; vy := 1; vz := 0 |};
     GetDriveshaftInertia := 0.5;
     GetDifferentialBoxInertia := 0.6;
     GetConicalGearRatio := -0.2 |}.

Definition example_chassis : ChBody :=
  {| body_name := 0; GetSystem := Some [] |}.

Definition unregistered_chassis : ChBody :=
  {| body_name := 0; GetSystem := null |}.

Definition example_axle_L : ChShaft := {| shaft_name := 2; shaft_inertia := 0.4 |}.
Definition example_axle_R : ChShaft := {| shaft_name := 3; shaft_inertia := 0.4 |}.

(** An initialized driveline whose differential reports the reaction
    torques -30 and -20 on its second and third member. *)
Definition example_driveline : ChShaftsDriveline2WD :=
  {| m_driveshaft := {| shaft_name := 0; shaft_inertia := 0.5 |};
     m_differentialbox := {| shaft_name := 1; shaft_inertia := 0.6 |};
     m_conicalgear :=
       new_gearbox {| shaft_name := 0; shaft_inertia := 0.5 |}
         {| shaft_name := 1; shaft_inertia := 0.6 |} example_chassis
         (m_dir_motor_block example_model) (m_dir_axle example_model) (-0.2);
     m_differential :=
       {| planet_carrier := {| shaft_name := 1; shaft_inertia := 0.6 |};
          planet_shaft2 := example_axle_L;
          planet_shaft3 := example_axle_R;
          ratio_ordinary := -1;
          GetTorqueReactionOn2 := -30;
          GetTorqueReactionOn3 := -20 |} |}.

End Driveline.

(* ================================================================== *)
(** * Suspension templates: [ChSolidAxle], [ChDoubleWishboneReduced] *)
(* ================================================================== *)

Module Suspension.
Import Physics.

Definition ChSharedBodyPtr : Type := ChSharedPtr ChBody.

(** The read accessors of a [ChSuspension] that the vehicle calls, each by
    side. *)
Record ChSuspension : Type := {
  GetSpindle       : Side -> ChSharedBodyPtr;
  GetSpindlePos    : Side -> ChVector;
  GetSpindleRot    : Side -> ChQuaternion;
  GetSpindleLinVel : Side -> ChVector;
  GetSpindleAngVel : Side -> ChVector;
  GetAxleSpeed     : Side -> double;
  GetSpringForce   : Side -> double;
  GetSpringLen     : Side -> double
}.

(** [ChSolidAxle::PointId] (ChSolidAxle.h). *)
Module ChSolidAxle.

Inductive PointId : Set :=
| AXLE_OUTER  (* outer axle point *)
| SHOCK_A     (* shock, axle *)
| SHOCK_C     (* shock, chassis *)
| KNUCKLE_L   (* lower knuckle point *)
| KNUCKLE_U   (* upper knuckle point *)
| LL_A        (* lower link, axle *)
| LL_A_X      (* lower link, axle, x-direction *)
| LL_A_Z      (* lower link, axle, z-direction *)
| LL_C        (* lower link, chassis *)
| LL_C_X      (* lower link, chassis, x-direction *)
| LL_C_Z      (* lower link, chassis, z-direction *)
| UL_A        (* upper link, axle *)
| UL_A_X      (* upper link, axle, x-direction *)
| UL_A_Z      (* upper link, axle, z-direction *)
| UL_C        (* upper link, chassis *)
| UL_C_X      (* upper link, chassis, x-direction *)
| UL_C_Z      (* upper link, chassis, z-direction *)
| SPRING_A    (* spring, axle *)
| SPRING_C    (* spring, chassis *)
| TIEROD_C    (* tierod, chassis *)
| TIEROD_K    (* tierod, knuckle *)
| SPINDLE     (* spindle location *)
| KNUCKLE_CM  (* knuckle, center of mass *)
| LL_CM       (* lower link, center of mass *)
| UL_CM       (* upper link, center of mass *)
| AXLE_CM.    (* axle, center of mass *)

(** The enumerators in declaration order: the position of each is its
    integer value, their number is [NUM_POINTS]. *)
Definition enumerators : list PointId :=
  [AXLE_OUTER; SHOCK_A; SHOCK_C; KNUCKLE_L; KNUCKLE_U;
   LL_A; LL_A_X; LL_A_Z; LL_C; LL_C_X; LL_C_Z;
   UL_A; UL_A_X; UL_A_Z; UL_C; UL_C_X; UL_C_Z;
   SPRING_A; SPRING_C; TIEROD_C; TIEROD_K; SPINDLE;
   KNUCKLE_CM; LL_CM; UL_CM; AXLE_CM].

Definition NUM_POINTS : nat := 26.

Definition value (which : PointId) : nat :=
  match which with
  | AXLE_OUTER => 0 | SHOCK_A => 1 | SHOCK_C => 2 | KNUCKLE_L => 3
  | KNUCKLE_U => 4 | LL_A => 5 | LL_A_X => 6 | LL_A_Z => 7 | LL_C => 8
  | LL_C_X => 9 | LL_C_Z => 10 | UL_A => 11 | UL_A_X => 12 | UL_A_Z => 13
  | UL_C => 14 | UL_C_X => 15 | UL_C_Z => 16 | SPRING_A => 17
  | SPRING_C => 18 | TIEROD_C => 19 | TIEROD_K => 20 | SPINDLE => 21
  | KNUCKLE_CM => 22 | LL_CM => 23 | UL_CM => 24 | AXLE_CM => 25
  end.

End ChSolidAxle.

(** [ChDoubleWishboneReduced::PointId] (ChDoubleWishboneReduced.h). *)
Module ChDoubleWishboneReduced.

Inductive PointId : Set :=
| SPINDLE   (* spindle location *)
| UPRIGHT   (* upright location *)
| UCA_F     (* upper control arm, chassis front *)
| UCA_B     (* upper control arm, chassis back *)
| UCA_U     (* upper control arm, upright *)
| LCA_F     (* lower control arm, chassis front *)
| LCA_B     (* lower control arm, chassis back *)
| LCA_U     (* lower control arm, upright *)
| SHOCK_C   (* shock, chassis *)
| SHOCK_U   (* shock, upright *)
| TIEROD_C  (* tierod, chassis *)
| TIEROD_U. (* tierod, upright *)

Definition enumerators : list PointId :=
  [SPINDLE; UPRIGHT; UCA_F; UCA_B; UCA_U; LCA_F; LCA_B; LCA_U;
   SHOCK_C; SHOCK_U; TIEROD_C; TIEROD_U].

Definition NUM_POINTS : nat := 12.

Definition value (which : PointId) : nat :=
  match which with
  | SPINDLE => 0 | UPRIGHT => 1 | UCA_F => 2 | UCA_B => 3 | UCA_U => 4
  | LCA_F => 5 | LCA_B => 6 | LCA_U => 7 | SHOCK_C => 8 | SHOCK_U => 9
  | TIEROD_C => 10 | TIEROD_U => 11
  end.

End ChDoubleWishboneReduced.

(** The two suspension variants and, for each, its point identifiers. *)
Inductive Variant : Set := SolidAxle | DoubleWishboneReduced.

Definition PointId (t : Variant) : Set :=
  match t with
  | SolidAxle => ChSolidAxle.PointId
  | DoubleWishboneReduced => ChDoubleWishboneReduced.PointId
  end.

Definition enumerators (t : Variant) : list (PointId t) :=
  match t with
  | SolidAxle => ChSolidAxle.enumerators
  | DoubleWishboneReduced => ChDoubleWishboneReduced.enumerators
  end.

Definition NUM_POINTS (t : Variant) : nat :=
  match t with
  | SolidAxle => ChSolidAxle.NUM_POINTS
  | DoubleWishboneReduced => ChDoubleWishboneReduced.NUM_POINTS
  end.

Definition value (t : Variant) : PointId t -> nat :=
  match t with
  | SolidAxle => ChSolidAxle.value
  | DoubleWishboneReduced => ChDoubleWishboneReduced.value
  end.

(** Reflecting the y coordinate of a point. *)
Definition mirror (pt : ChVector) : ChVector :=
  {| vx := vx pt; vy := - vy pt; vz := vz pt |}.

(** Modelled from the spec: the bodies of [ChSolidAxle::Initialize] and
    [ChDoubleWishboneReduced::Initialize], which fill the vector of points of
    a side from the pure virtual [getLocation], are not among the sources
    (the two headers are).  Spec 4.1: "Each suspension variant supplies a
    fixed table mapping point identifiers to 3-D coordinates expressed for
    the RIGHT side [...] Construction for the LEFT side takes the same table
    and negates the Y component of every point"; the header says the same:
    "All point locations are assumed to be given for the right half of the
    supspension and will be mirrored (reflecting the y coordinates) to
    construct the left side". *)
Definition side_points (t : Variant) (getLocation : PointId t -> ChVector)
  (side : Side) : list ChVector :=
  map (fun which =>
         let rel_pos := getLocation which in
         match side with
         | RIGHT => rel_pos
         | LEFT => mirror rel_pos
         end)
      (enumerators t).

(** [points[which]], the point that the construction of a side uses. *)
Definition hardpoint (t : Variant) (getLocation : PointId t -> ChVector)
  (side : Side) (which : PointId t) : option ChVector :=
  nth_error (side_points t getLocation side) (value t which).

End Suspension.

(* ================================================================== *)
(** * Vehicle assembly: [HMMWV_VehicleSolidAxle] *)
(* ================================================================== *)

Module Vehicle.
Import Physics.
Import Suspension.

(** The two suspension subsystems that the accessors dispatch to.  The
    constructor creates both, so neither member is ever null. *)
Record HMMWV_VehicleSolidAxle : Type := {
  m_front_susp : ChSuspension;
  m_rear_susp  : ChSuspension
}.

Section Accessors.

Variable v : HMMWV_VehicleSolidAxle.

(** [HMMWV_VehicleSolidAxle::GetWheelBody]. *)
Definition GetWheelBody (which : ChWheelId) : ChSharedBodyPtr :=
  switch_wheel which
    (GetSpindle (m_front_susp v) LEFT)
    (GetSpindle (m_front_susp v) RIGHT)
    (GetSpindle (m_rear_susp v) LEFT)
    (GetSpindle (m_rear_susp v) RIGHT)
    (GetSpindle (m_front_susp v) RIGHT).  (* should not happen *)

(** [HMMWV_VehicleSolidAxle::GetWheelPos]. *)
Definition GetWheelPos (which : ChWheelId) : ChVector :=
  switch_wheel which
    (GetSpindlePos (m_front_susp v) LEFT)
    (GetSpindlePos (m_front_susp v) RIGHT)
    (GetSpindlePos (m_rear_susp v) LEFT)
    (GetSpindlePos (m_rear_susp v) RIGHT)
    (GetSpindlePos (m_front_susp v) RIGHT).  (* should not happen *)

(** [HMMWV_VehicleSolidAxle::GetWheelRot]. *)
Definition GetWheelRot (which : ChWheelId) : ChQuaternion :=
  switch_wheel which
    (GetSpindleRot (m_front_susp v) LEFT)
    (GetSpindleRot (m_front_susp v) RIGHT)
    (GetSpindleRot (m_rear_susp v) LEFT)
    (GetSpindleRot (m_rear_susp v) RIGHT)
    (GetSpindleRot (m_front_susp v) RIGHT).  (* should not happen *)

(** [HMMWV_VehicleSolidAxle::GetWheelLinVel]. *)
Definition GetWheelLinVel (which : ChWheelId) : ChVector :=
  switch_wheel which
    (GetSpindleLinVel (m_front_susp v) LEFT)
    (GetSpindleLinVel (m_front_susp v) RIGHT)
    (GetSpindleLinVel (m_rear_susp v) LEFT)
    (GetSpindleLinVel (m_rear_susp v) RIGHT)
    (GetSpindleLinVel (m_front_susp v) RIGHT).  (* should not happen *)

(** [HMMWV_VehicleSolidAxle::GetWheelAngVel]. *)
Definition GetWheelAngVel (which : ChWheelId) : ChVector :=
  switch_wheel which
    (GetSpindleAngVel (m_front_susp v) LEFT)
    (GetSpindleAngVel (m_front_susp v) RIGHT)
    (GetSpindleAngVel (m_rear_susp v) LEFT)
    (GetSpindleAngVel (m_rear_susp v) RIGHT)
    (GetSpindleAngVel (m_front_susp v) RIGHT).  (* should not happen *)

(** [HMMWV_VehicleSolidAxle::GetWheelOmega]. *)
Definition GetWheelOmega (which : ChWheelId) : double :=
  switch_wheel which
    (GetAxleSpeed (m_front_susp v) LEFT)
    (GetAxleSpeed (m_front_susp v) RIGHT)
    (GetAxleSpeed (m_rear_susp v) LEFT)
    (GetAxleSpeed (m_rear_susp v) RIGHT)
    (-1).  (* should not happen *)

(** [HMMWV_VehicleSolidAxle::GetSpringForce]. *)
Definition GetSpringForce (which : ChWheelId) : double :=
  switch_wheel which
    (Suspension.GetSpringForce (m_front_susp v) LEFT)
    (Suspension.GetSpringForce (m_front_susp v) RIGHT)
    (Suspension.GetSpringForce (m_rear_susp v) LEFT)
    (Suspension.GetSpringForce (m_rear_susp v) RIGHT)
    (-1).  (* should not happen *)

(** [HMMWV_VehicleSolidAxle::GetSpringLength]. *)
Definition GetSpringLength (which : ChWheelId) : double :=
  switch_wheel which
    (GetSpringLen (m_front_susp v) LEFT)
    (GetSpringLen (m_front_susp v) RIGHT)
    (GetSpringLen (m_rear_susp v) LEFT)
    (GetSpringLen (m_rear_susp v) RIGHT)
    (-1).  (* should not happen *)

End Accessors.

(** Modelled from the spec: the struct [ChTireForce] is declared in a header
    that is not among the sources.  Spec 3: "TireForce: force vector, moment
    vector, application point, per wheel". *)
Record ChTireForce : Set := {
  force  : ChVector;
  point  : ChVector;
  moment : ChVector
}.

(** [ChTireForces], a [std::vector<ChTireForce>] indexed by wheel id. *)
Definition ChTireForces : Set := list ChTireForce.

(** [tire_forces[which]]; there is no element to read past the end. *)
Definition at_wheel (tire_forces : ChTireForces) (which : ChWheelId)
  : option ChTireForce :=
  nth_error tire_forces (Z.to_nat which).

(** The subsystems that [Update] drives: the members [m_front_susp] and
    [m_rear_susp], and the four brakes. *)
Inductive SuspensionMember : Set := front_susp | rear_susp.
Inductive Brake : Set :=
  front_right_brake | front_left_brake | rear_right_brake | rear_left_brake.

(** One call of [Update] on a subsystem, with its arguments. *)
Inductive Call : Set :=
| ApplySteering (s : SuspensionMember) (displ : double)
| PowertrainUpdate (time throttle : double)
| ApplyTireForce (s : SuspensionMember) (side : Side) (tire_force : ChTireForce)
| ApplyBrakeModulation (b : Brake) (braking : double).

(** The suspension and side that own the spindle of a wheel: the dispatch of
    [GetWheelBody], [default] apart. *)
Definition wheel_spindle (which : ChWheelId)
  : option (SuspensionMember * Side) :=
  switch_wheel which
    (Some (front_susp, LEFT))
    (Some (front_susp, RIGHT))
    (Some (rear_susp, LEFT))
    (Some (rear_susp, RIGHT))
    None.

(** The suspension subsystem behind a member. *)
Definition suspension_of (v : HMMWV_VehicleSolidAxle) (s : SuspensionMember)
  : ChSuspension :=
  match s with
  | front_susp => m_front_susp v
  | rear_susp => m_rear_susp v
  end.

(** [HMMWV_VehicleSolidAxle::Update]: the calls it makes, in program order.
    [None] when [tire_forces] has no element at one of the four keys. *)
Definition Update (time throttle steering braking : double)
  (tire_forces : ChTireForces) : option (list Call) :=
  (* Apply steering input. *)
  let displ := 0.08 * steering in
  let calls := [ApplySteering front_susp displ] in
  (* Let the powertrain subsystem process the throttle input. *)
  let calls := calls ++ [PowertrainUpdate time throttle] in
  (* Apply tire forces to spindle bodies. *)
  match at_wheel tire_forces FRONT_RIGHT, at_wheel tire_forces FRONT_LEFT,
        at_wheel tire_forces REAR_RIGHT, at_wheel tire_forces REAR_LEFT with
  | Some f_FR, Some f_FL, Some f_RR, Some f_RL =>
    let calls := calls ++ [ApplyTireForce front_susp RIGHT f_FR] in
    let calls := calls ++ [ApplyTireForce front_susp LEFT f_FL] in
    let calls := calls ++ [ApplyTireForce rear_susp RIGHT f_RR] in
    let calls := calls ++ [ApplyTireForce rear_susp LEFT f_RL] in
    (* Apply braking *)
    let calls := calls ++ [ApplyBrakeModulation front_right_brake braking] in
    let calls := calls ++ [ApplyBrakeModulation front_left_brake braking] in
    let calls := calls ++ [ApplyBrakeModulation rear_right_brake braking] in
    let calls := calls ++ [ApplyBrakeModulation rear_left_brake braking] in
    Some calls
  | _, _, _, _ => None
  end.

(** A vehicle whose four spindles are four different bodies with different
    states, for the examples below. *)
Definition example_suspension (front : bool) : ChSuspension :=
  let k : Z := if front then 0%Z else 2%Z in
  let n (side : Side) : Z :=
    (k + match side with LEFT => 0 | RIGHT => 1 end)%Z in
  {| GetSpindle := fun side =>
       Some {| body_name := Z.to_nat (n side); GetSystem := Some [] |};
     GetSpindlePos := fun side =>
       {| vx := inject_Z (n side); vy := 1; vz := 0 |};
     GetSpindleRot := fun side =>
       {| e0 := 1; e1 := inject_Z (n side); e2 := 0; e3 := 0 |};
     GetSpindleLinVel := fun side =>
       {| vx := 10; vy := inject_Z (n side); vz := 0 |};
     GetSpindleAngVel := fun side =>
       {| vx := 0; vy := 30; vz := inject_Z (n side) |};
     GetAxleSpeed := fun side => 30 + inject_Z (n side);
     Suspension.GetSpringForce := fun side => 15000 + inject_Z (n side);
     GetSpringLen := fun side => 0.3 + inject_Z (n side) |}.

Definition example_vehicle : HMMWV_VehicleSolidAxle :=
  {| m_front_susp := example_suspension true;
     m_rear_susp := example_suspension false |}.

End Vehicle.

(* ================================================================== *)
(** * Runs of the powertrain: any interleaving of its two operations *)
(* ================================================================== *)

Module Driver.
Import Powertrain.






End Driver.

(* ================================================================== *)
(** * Vehicle assembly: [HMMWV_VehicleSolidAxle::Initialize] *)
(* ================================================================== *)

Module Assembly.
Import Physics Suspension.

(** [ChCoordsys<>]: a position and a rotation. *)
Record ChCoordsys : Set := { pos : ChVector; rot : ChQuaternion }.

(** [static const double in2m = 0.0254] and the product of a scalar and a
    vector. *)
Definition in2m : double := 0.0254.

Definition scale (k : double) (v : ChVector) : ChVector :=
  {| vx := k * vx v; vy := k * vy v; vz := k * vz v |}.

(** What an initialized suspension hands to the driveline and to the brakes:
    the axle shaft of a side (null when the suspension has none) and its
    revolute joint. *)
Record SuspensionParts : Type := {
  GetAxle     : Side -> ChSharedPtr ChShaft;
  GetRevolute : Side -> nat
}.

(** The four wheel members. *)
Inductive Wheel : Set :=
  front_right_wheel | front_left_wheel | rear_right_wheel | rear_left_wheel.

(** One call of [Initialize] on the chassis or on a subsystem. *)
Inductive InitCall : Type :=
| ChassisSetPos (p : ChVector)
| ChassisSetRot (q : ChQuaternion)
| SuspensionInitialize (s : Vehicle.SuspensionMember) (location : ChVector)
| WheelInitialize (w : Wheel) (spindle : ChSharedBodyPtr)
| DrivelineInitialize (axle_L axle_R : ChSharedPtr ChShaft)
| PowertrainInitialize (driveshaft : ChShaft)
| BrakeInitialize (b : Vehicle.Brake) (revolute : nat).

(** The vehicle at [Initialize]: the chassis that the constructor has
    created and added to the system, the two suspensions (what their
    accessors return once their own [Initialize] has run) and the driveline
    model. *)
Record VehicleParts : Type := {
  m_chassis   : ChBody;
  m_susp      : Vehicle.HMMWV_VehicleSolidAxle;
  front_parts : SuspensionParts;
  rear_parts  : SuspensionParts;
  m_driveline : Driveline.Driveline2WD
}.

(** [HMMWV_VehicleSolidAxle::Initialize]: the calls made, in program order,
    and how the call ends.  The driveline's [Initialize] is the one of
    [ChShaftsDriveline2WD]; when it does not return, nothing after it
    runs. *)
Definition Initialize (v : VehicleParts) (chassisPos : ChCoordsys)
  : list InitCall
    * Driveline.outcome (Driveline.ChShaftsDriveline2WD * ChSystem) :=
  let front := Vehicle.m_front_susp (m_susp v) in
  let rear := Vehicle.m_rear_susp (m_susp v) in
  let calls := [ChassisSetPos (pos chassisPos); ChassisSetRot (rot chassisPos)] in
  (* Initialize the suspension subsystems *)
  let calls := calls ++
    [SuspensionInitialize Vehicle.front_susp
       (scale in2m {| vx := -66.59; vy := 0; vz := 1.039 |});
     SuspensionInitialize Vehicle.rear_susp
       (scale in2m {| vx := 66.4; vy := 0; vz := 1.039 |})] in
  (* Initialize wheels *)
  let calls := calls ++
    [WheelInitialize front_right_wheel (GetSpindle front RIGHT);
     WheelInitialize front_left_wheel (GetSpindle front LEFT);
     WheelInitialize rear_right_wheel (GetSpindle rear RIGHT);
     WheelInitialize rear_left_wheel (GetSpindle rear LEFT)] in
  (* Initialize the driveline subsystem (RWD) *)
  let axle_L := GetAxle (rear_parts v) LEFT in
  let axle_R := GetAxle (rear_parts v) RIGHT in
  let calls := calls ++ [DrivelineInitialize axle_L axle_R] in
  match Driveline.Initialize (m_driveline v) (Some (m_chassis v)) axle_L axle_R with
  | Driveline.Returned (d, sys) =>
    (* Initialize the powertrain subsystem *)
    let calls := calls ++ [PowertrainInitialize (Driveline.m_driveshaft d)] in
    (* Initialize the four brakes *)
    let calls := calls ++
      [BrakeInitialize Vehicle.front_right_brake (GetRevolute (front_parts v) RIGHT);
       BrakeInitialize Vehicle.front_left_brake (GetRevolute (front_parts v) LEFT);
       BrakeInitialize Vehicle.rear_right_brake (GetRevolute (rear_parts v) RIGHT);
       BrakeInitialize Vehicle.rear_left_brake (GetRevolute (rear_parts v) LEFT)] in
    (calls, Driveline.Returned (d, sys))
  | Driveline.AssertionFailed => (calls, Driveline.AssertionFailed)
  | Driveline.NullDereference => (calls, Driveline.NullDereference)
  end.

(** Whether a call initializes the powertrain or a brake. *)
Definition after_driveline (c : InitCall) : bool :=
  match c with
  | PowertrainInitialize _ | BrakeInitialize _ _ => true
  | _ => false
  end.

(** The calls of [Initialize] up to and including the driveline's, with the
    spindle of each wheel written as the body that [GetWheelBody] returns
    for the wheel identifier of the same name. *)
Definition calls_up_to_driveline (v : VehicleParts) (chassisPos : ChCoordsys)
  : list InitCall :=
  [ ChassisSetPos (pos chassisPos); ChassisSetRot (rot chassisPos);
    SuspensionInitialize Vehicle.front_susp
      (scale in2m {| vx := -66.59; vy := 0; vz := 1.039 |});
    SuspensionInitialize Vehicle.rear_susp
      (scale in2m {| vx := 66.4; vy := 0; vz := 1.039 |});
    WheelInitialize front_right_wheel
      (Vehicle.GetWheelBody (m_susp v) FRONT_RIGHT);
    WheelInitialize front_left_wheel
      (Vehicle.GetWheelBody (m_susp v) FRONT_LEFT);
    WheelInitialize rear_right_wheel
      (Vehicle.GetWheelBody (m_susp v) REAR_RIGHT);
    WheelInitialize rear_left_wheel
      (Vehicle.GetWheelBody (m_susp v) REAR_LEFT);
    DrivelineInitialize (GetAxle (rear_parts v) LEFT)
      (GetAxle (rear_parts v) RIGHT) ].

(** An example: the example vehicle of the accessors with a driven rear
    suspension, and the same with an undriven one. *)
Definition example_parts (driven : bool) : SuspensionParts :=
  {| GetAxle := fun side =>
       if driven
       then Some match side with
                 | LEFT => Driveline.example_axle_L
                 | RIGHT => Driveline.example_axle_R
                 end
       else null;
     GetRevolute := fun side => match side with LEFT => 0%nat | RIGHT => 1%nat end |}.

Definition example (rear_driven : bool) : VehicleParts :=
  {| m_chassis := Driveline.example_chassis;
     m_susp := Vehicle.example_vehicle;
     front_parts := example_parts false;
     rear_parts := example_parts rear_driven;
     m_driveline := Driveline.example_model |}.

End Assembly.

(* ================================================================== *)
(** * The spherical joint test: [TestSpherical] and [main] *)
(* ================================================================== *)

Module SphericalTest.
Import String.

(** Settings of [TestSpherical]. *)
Definition timeRecord : double := 5.         (* stop recording after this much simulated time *)
Definition printTimeStep : double := 0.001.  (* write the output file at this time step *)

(** The variables of the simulation loop and what the loop has produced so
    far: the [timeElapsed] column of the rows written to the output file,
    how often the closing message went to the console, and how many steps
    of the dynamics were taken. *)
Record Loop : Set := {
  timeElapsed : double;
  lastPrint   : double;
  rows        : list double;
  messages    : nat;
  steps       : nat
}.

(** [timeElapsed = 0; lastPrint = -printTimeStep]. *)
Definition start : Loop :=
  {| timeElapsed := 0;
     lastPrint := - printTimeStep;
     rows := [];
     messages := 0;
     steps := 0 |}.

(** The first [if] of the loop body: one row, when the file is valid, the
    recording time is not over and the next print time is reached. *)
Definition write_row (outf : bool) (simTimeStep : double) (st : Loop) : Loop :=
  if outf
     && Qle_bool (timeElapsed st) (timeRecord + simTimeStep / 2)
     && Qle_bool (lastPrint st + printTimeStep)
                 (timeElapsed st + simTimeStep / 2)
  then {| timeElapsed := timeElapsed st;
          lastPrint := lastPrint st + printTimeStep;
          rows := rows st ++ [timeElapsed st];
          messages := messages st;
          steps := steps st |}
  else st.

(** The second [if]: the message once [timeRecord] has been reached. *)
Definition report_recorded (simTimeStep : double) (st : Loop) : Loop :=
  if Qle_bool (timeRecord - simTimeStep / 2) (timeElapsed st)
     && Qle_bool (timeElapsed st) (timeRecord + simTimeStep / 2)
  then {| timeElapsed := timeElapsed st;
          lastPrint := lastPrint st;
          rows := rows st;
          messages := S (messages st);
          steps := steps st |}
  else st.

(** [timeElapsed += simTimeStep] and one step of the dynamics
    ([DoStep] or [DoStepDynamics]). *)
Definition advance (simTimeStep : double) (st : Loop) : Loop :=
  {| timeElapsed := timeElapsed st + simTimeStep;
     lastPrint := lastPrint st;
     rows := rows st;
     messages := messages st;
     steps := S (steps st) |}.

(** The loop body up to the assignment of [continueSimulation]. *)
Definition body (outf : bool) (simTimeStep : double) (st : Loop) : Loop :=
  advance simTimeStep (report_recorded simTimeStep (write_row outf simTimeStep st)).

(** [continueSimulation]: what the display device answers when animating
    ([device k] after the [k]-th step), the time test otherwise. *)
Definition continueSimulation (animate : bool) (device : nat -> bool)
  (simTimeStep : double) (st : Loop) : bool :=
  if animate then device (steps st)
  else Qle_bool (timeElapsed st) (timeRecord + simTimeStep / 2).

(** [while (continueSimulation) { ... }], entered with
    [continueSimulation = true]; [None] when [fuel] iterations do not reach
    the end of the loop. *)
Fixpoint simulate (fuel : nat) (animate outf : bool) (device : nat -> bool)
  (simTimeStep : double) (st : Loop) : option Loop :=
  match fuel with
  | O => None
  | S fuel =>
    let st := body outf simTimeStep st in
    if continueSimulation animate device simTimeStep st
    then simulate fuel animate outf device simTimeStep st
    else Some st
  end.

(** A natural number as a double. *)
Definition Qnat (n : nat) : double := inject_Z (Z.of_nat n).


(** What the loop leaves apart from the output file. *)
Definition progress (st : Loop) : double * nat * nat :=
  (timeElapsed st, messages st, steps st).

(** The angles of the calls in [main]. *)
Inductive Angle : Set := angle_0 | minus_CH_C_PI_4.

(** One call of [TestSpherical(loc, Q_from_AngX(angle), simTimeStep,
    outputFilename, animate)]. *)
Record TestCase : Set := {
  loc            : ChVector;
  revAxisRot     : Angle;
  simTimeStep    : double;
  outputFilename : String.string;
  animate        : bool
}.

(** [main]: [argc], and what the two [MakeDirectory] calls return when they
    are reached.  The result: the test cases started, in order, and the
    exit code. *)
Definition main (argc : Z) (made_VALIDATION made_SPHERICAL_JOINT : Z)
  : list TestCase * Z :=
  let animate := (1 <? argc)%Z in
  if (made_VALIDATION <? 0)%Z then ([], 1%Z)
  else if (made_SPHERICAL_JOINT <? 0)%Z then ([], 1%Z)
  else
    let test_passed := true in
    let case01 :=
      {| loc := {| vx := 0; vy := 0; vz := 0 |}; revAxisRot := angle_0;
         simTimeStep := 0.001;
         outputFilename := "SphericalJointData_Case01.txt"%string;
         animate := animate |} in
    let case02 :=
      {| loc := {| vx := 1; vy := 2; vz := 3 |}; revAxisRot := minus_CH_C_PI_4;
         simTimeStep := 0.001;
         outputFilename := "SphericalJointData_Case02.txt"%string;
         animate := animate |} in
    ([case01; case02], if negb test_passed then 1%Z else 0%Z).

End SphericalTest.

(* ================================================================== *)
(** * The spherical joint test over binary64 *)
(* ================================================================== *)

(** Decimal constants are rounded to the nearest double, as the compiler
    of the test rounds them; step counts in the thousands are written in
    decimal. *)
Set Warnings "-inexact-float,-abstract-large-number".

Module SphericalTest64.

Local Open Scope float_scope.

(** Settings of [TestSpherical], as doubles. *)
Definition timeRecord : float := 5.
Definition printTimeStep : float := 0.001.

(** The variables of the loop, as in [SphericalTest.Loop]. *)
Record Loop : Set := {
  timeElapsed : float;
  lastPrint   : float;
  rows        : list float;
  messages    : nat;
  steps       : nat
}.

Definition start : Loop :=
  {| timeElapsed := 0;
     lastPrint := - printTimeStep;
     rows := [];
     messages := 0;
     steps := 0 |}.

Definition write_row (outf : bool) (simTimeStep : float) (st : Loop) : Loop :=
  if outf
     && (timeElapsed st <=? timeRecord + simTimeStep / 2)
     && (lastPrint st + printTimeStep <=? timeElapsed st + simTimeStep / 2)
  then {| timeElapsed := timeElapsed st;
          lastPrint := lastPrint st + printTimeStep;
          rows := rows st ++ [timeElapsed st];
          messages := messages st;
          steps := steps st |}
  else st.

Definition report_recorded (simTimeStep : float) (st : Loop) : Loop :=
  if (timeRecord - simTimeStep / 2 <=? timeElapsed st)
     && (timeElapsed st <=? timeRecord + simTimeStep / 2)
  then {| timeElapsed := timeElapsed st;
          lastPrint := lastPrint st;
          rows := rows st;
          messages := S (messages st);
          steps := steps st |}
  else st.

Definition advance (simTimeStep : float) (st : Loop) : Loop :=
  {| timeElapsed := timeElapsed st + simTimeStep;
     lastPrint := lastPrint st;
     rows := rows st;
     messages := messages st;
     steps := S (steps st) |}.

Definition body (outf : bool) (simTimeStep : float) (st : Loop) : Loop :=
  advance simTimeStep (report_recorded simTimeStep (write_row outf simTimeStep st)).

Definition continueSimulation (animate : bool) (device : nat -> bool)
  (simTimeStep : float) (st : Loop) : bool :=
  if animate then device (steps st)
  else timeElapsed st <=? timeRecord + simTimeStep / 2.

Fixpoint simulate (fuel : nat) (animate outf : bool) (device : nat -> bool)
  (simTimeStep : float) (st : Loop) : option Loop :=
  match fuel with
  | O => None
  | S fuel =>
    let st := body outf simTimeStep st in
    if continueSimulation animate device simTimeStep st
    then simulate fuel animate outf device simTimeStep st
    else Some st
  end.

End SphericalTest64.

(* ================================================================== *)
(** * Properties of the powertrain *)
(* ================================================================== *)

Section PowertrainProperties.
Import Powertrain.

Variable p : SimplePowertrain.

(** [Update] reads the cached gear ratio and the drive mode, and writes
    neither. *)
Lemma Update_gear_ratio pt time throttle shaft_speed :
  m_current_gear_ratio (Update p pt time throttle shaft_speed)
  = m_current_gear_ratio pt.
Proof. reflexivity. Qed.

Lemma Update_drive_mode pt time throttle shaft_speed :
  m_drive_mode (Update p pt time throttle shaft_speed) = m_drive_mode pt.
Proof. reflexivity. Qed.

(** Hence no sequence of [Update] calls changes them. *)
Lemma Updates_gear_ratio calls : forall pt,
  m_current_gear_ratio (Updates p pt calls) = m_current_gear_ratio pt.
Proof.
  induction calls as [| [[time throttle] shaft_speed] calls IH]; intro pt.
  - reflexivity.
  - unfold Updates in *. cbn [fold_left Update_step].
    rewrite IH. apply Update_gear_ratio.
Qed.

Lemma Updates_drive_mode calls : forall pt,
  m_drive_mode (Updates p pt calls) = m_drive_mode pt.
Proof.
  induction calls as [| [[time throttle] shaft_speed] calls IH]; intro pt.
  - reflexivity.
  - unfold Updates in *. cbn [fold_left Update_step].
    rewrite IH. apply Update_drive_mode.
Qed.

(** The closed form of the three outputs of one [Update]. *)
Lemma Update_motorSpeed pt time throttle shaft_speed :
  m_motorSpeed (Update p pt time throttle shaft_speed)
  = shaft_speed / m_current_gear_ratio pt.
Proof. reflexivity. Qed.

Lemma Update_motorTorque pt time throttle shaft_speed :
  m_motorTorque (Update p pt time throttle shaft_speed)
  = (GetMaxTorque p
     - shaft_speed / m_current_gear_ratio pt * (GetMaxTorque p / GetMaxSpeed p))
    * throttle.
Proof. reflexivity. Qed.

Lemma Update_shaftTorque pt time throttle shaft_speed :
  m_shaftTorque (Update p pt time throttle shaft_speed)
  = m_motorTorque (Update p pt time throttle shaft_speed)
    / m_current_gear_ratio pt.
Proof. reflexivity. Qed.

(** What [SetDriveMode] caches for each mode. *)
Lemma SetDriveMode_gear_ratio pt mode :
  m_current_gear_ratio (SetDriveMode p pt mode)
  = match mode with
    | FORWARD => GetForwardGearRatio p
    | REVERSE => GetReverseGearRatio p
    | NEUTRAL => 1e20
    end.
Proof. destruct mode; reflexivity. Qed.


(** The gear ratio that [SetDriveMode(NEUTRAL)] caches survives every
    sequence of [Update] calls. *)
Lemma after_neutral_gear_ratio pt calls :
  m_current_gear_ratio (after_neutral p pt calls) = 1e20.
Proof.
  unfold after_neutral. rewrite Updates_gear_ratio.
  apply (SetDriveMode_gear_ratio pt NEUTRAL).
Qed.

(** Dividing by the neutral ratio brings a magnitude of at most [tol * 1e20]
    within [tol] of zero. *)
Lemma Qabs_div_1e20 (x tol : Q) :
  Qabs x <= tol * 1e20 -> Qabs (x / 1e20) <= tol.
Proof.
  intro H. apply Qabs_Qle_condition in H. apply Qabs_Qle_condition.
  destruct H as [Hl Hu].
  split.
  - apply Qle_shift_div_l; [reflexivity | lra].
  - apply Qle_shift_div_r; [reflexivity | lra].
Qed.

(** C1, as amended.  For every throttle, shaft speed and cached gear ratio
    [r] that is not zero, [Update(time, throttle, shaftSpeed)] sets
    [motorSpeed = shaftSpeed / r],
    [motorTorque = (maxTorque - motorSpeed * (maxTorque / maxSpeed)) * throttle]
    and [shaftTorque = motorTorque / r].  The torque is not clamped: with a
    positive maximum torque, maximum speed and throttle, a motor speed above
    the maximum speed gives a negative motor torque.  When moreover
    [maxSpeed] is not zero and the arithmetic is exact, throttle 0 gives
    shaft torque 0 for any shaft speed, throttle 1 at shaft speed 0 gives the
    maximum torque, and throttle 1 at shaft speed [maxSpeed * r] gives motor
    torque 0. *)
Theorem Update_torque_curve pt time throttle shaft_speed :
  ~ m_current_gear_ratio pt == 0 ->
  (* the assignments of the body *)
  m_motorSpeed (Update p pt time throttle shaft_speed)
    = shaft_speed / m_current_gear_ratio pt /\
  m_motorTorque (Update p pt time throttle shaft_speed)
    = (GetMaxTorque p
       - m_motorSpeed (Update p pt time throttle shaft_speed)
         * (GetMaxTorque p / GetMaxSpeed p)) * throttle /\
  m_shaftTorque (Update p pt time throttle shaft_speed)
    = m_motorTorque (Update p pt time throttle shaft_speed)
      / m_current_gear_ratio pt /\
  (* no clamping: beyond the maximum speed the torque is negative *)
  (0 < GetMaxTorque p -> 0 < GetMaxSpeed p -> 0 < throttle ->
   GetMaxSpeed p < m_motorSpeed (Update p pt time throttle shaft_speed) ->
   m_motorTorque (Update p pt time throttle shaft_speed) < 0) /\
  (* the three particular calls *)
  (~ GetMaxSpeed p == 0 ->
   m_shaftTorque (Update p pt time 0 shaft_speed) == 0 /\
   m_motorTorque (Update p pt time 1 0) == GetMaxTorque p /\
   m_motorTorque
     (Update p pt time 1 (GetMaxSpeed p * m_current_gear_ratio pt)) == 0).
Proof.
  intros Hr.
  split; [reflexivity |]. split; [reflexivity |]. split; [reflexivity |].
  split.
  - rewrite Update_motorTorque, Update_motorSpeed.
    intros HT HS Hth Hms.
    set (k := GetMaxTorque p / GetMaxSpeed p).
    assert (Hk : k * GetMaxSpeed p == GetMaxTorque p)
      by (unfold k; field; lra).
    assert (Hkpos : 0 < k).
    { unfold k. apply Qlt_shift_div_l; lra. }
    set (ms := shaft_speed / m_current_gear_ratio pt) in *.
    assert (Hd : 0 < k * (ms - GetMaxSpeed p))
      by (apply Qmult_lt_0_compat; lra).
    assert (Hp : 0 < k * (ms - GetMaxSpeed p) * throttle)
      by (apply Qmult_lt_0_compat; assumption).
    assert (He : (GetMaxTorque p - ms * k) * throttle
                 == - (k * (ms - GetMaxSpeed p) * throttle))
      by (rewrite <- Hk; ring).
    rewrite He. lra.
  - intro Hs. split; [| split].
    + rewrite Update_shaftTorque, Update_motorTorque.
      field. split; assumption.
    + rewrite Update_motorTorque. field. split; assumption.
    + rewrite Update_motorTorque. field. split; assumption.
Qed.

(** C9.  [Update] leaves the drive mode and the cached gear ratio as they
    were (it writes the three outputs only), and [SetDriveMode] leaves the
    three outputs as they were (it writes the drive mode and the cached gear
    ratio only), for every prior state and all arguments. *)
Theorem Update_SetDriveMode_frame pt time throttle shaft_speed mode :
  (m_drive_mode (Update p pt time throttle shaft_speed) = m_drive_mode pt /\
   m_current_gear_ratio (Update p pt time throttle shaft_speed)
   = m_current_gear_ratio pt) /\
  (m_motorSpeed (SetDriveMode p pt mode) = m_motorSpeed pt /\
   m_motorTorque (SetDriveMode p pt mode) = m_motorTorque pt /\
   m_shaftTorque (SetDriveMode p pt mode) = m_shaftTorque pt).
Proof.
  split.
  - split; [apply Update_drive_mode | apply Update_gear_ratio].
  - destruct mode; repeat split.
Qed.

(** C10.  The state that [Update] leaves does not depend on its [time]
    argument: from the same prior state, with the same throttle and shaft
    speed, two times give identical states.  Hence a whole sequence of
    [Update] calls leaves the same state whatever the times of its calls. *)
Theorem Update_time_independent pt t1 t2 throttle shaft_speed
  (clock : double -> double) (calls : list step) :
  Update p pt t1 throttle shaft_speed = Update p pt t2 throttle shaft_speed /\
  Updates p pt (retime clock calls) = Updates p pt calls.
Proof.
  split; [reflexivity |].
  revert pt.
  induction calls as [| [[time throttle'] shaft_speed'] calls IH]; intro pt.
  - reflexivity.
  - unfold Updates in *. cbn [retime map fold_left Update_step].
    apply IH.
Qed.

(** C5, as amended.  After [SetDriveMode(NEUTRAL)] and any number of
    [Update] calls, the cached gear ratio is still 1e20, which is not zero,
    so the next [Update] divides by it: [motorSpeed = shaftSpeed / 1e20] and
    [shaftTorque = motorTorque / 1e20].  Each is within a tolerance [tol] of
    zero when the shaft speed, respectively the motor torque, is at most
    [tol * 1e20] in magnitude. *)
Theorem neutral_decouples pt calls time throttle shaft_speed tol :
  Qabs shaft_speed <= tol * 1e20 ->
  Qabs (m_motorTorque
          (Update p (after_neutral p pt calls) time throttle shaft_speed))
    <= tol * 1e20 ->
  m_current_gear_ratio (after_neutral p pt calls) = 1e20 /\
  ~ m_current_gear_ratio (after_neutral p pt calls) == 0 /\
  m_motorSpeed (Update p (after_neutral p pt calls) time throttle shaft_speed)
    = shaft_speed / 1e20 /\
  m_shaftTorque (Update p (after_neutral p pt calls) time throttle shaft_speed)
    = m_motorTorque
        (Update p (after_neutral p pt calls) time throttle shaft_speed) / 1e20 /\
  Qabs (m_motorSpeed
          (Update p (after_neutral p pt calls) time throttle shaft_speed))
    <= tol /\
  Qabs (m_shaftTorque
          (Update p (after_neutral p pt calls) time throttle shaft_speed))
    <= tol.
Proof.
  intros Hs Ht.
  rewrite Update_shaftTorque, Update_motorSpeed.
  rewrite after_neutral_gear_ratio.
  repeat split.
  - discriminate.
  - now apply Qabs_div_1e20.
  - now apply Qabs_div_1e20.
Qed.

End PowertrainProperties.

(** The scenario powertrain in forward gear: both divisors are non-zero; at
    shaft speed 4800 the motor turns at 1200 rad/s, above its maximum of
    600, and the torque at full throttle is negative; at shaft speed
    [600 * 4] the torque is zero. *)
Lemma Update_torque_curve_witness :
  ~ Powertrain.m_current_gear_ratio Powertrain.scenario_start == 0 /\
  ~ Powertrain.GetMaxSpeed Powertrain.scenario == 0 /\
  Powertrain.m_motorTorque
    (Powertrain.Update Powertrain.scenario Powertrain.scenario_start 0 1 4800)
  < 0 /\
  Powertrain.m_motorTorque
    (Powertrain.Update Powertrain.scenario Powertrain.scenario_start 0 1
       (Powertrain.GetMaxSpeed Powertrain.scenario
        * Powertrain.m_current_gear_ratio Powertrain.scenario_start)) == 0.
Proof.
  assert (Hr : ~ Powertrain.m_current_gear_ratio Powertrain.scenario_start == 0)
    by (vm_compute; discriminate).
  assert (Hs : ~ Powertrain.GetMaxSpeed Powertrain.scenario == 0)
    by (vm_compute; discriminate).
  destruct (Update_torque_curve Powertrain.scenario Powertrain.scenario_start
              0 1 4800 Hr) as (_ & _ & _ & Hneg & Hcalls).
  destruct (Hcalls Hs) as (_ & _ & Hzero).
  refine (conj Hr (conj Hs (conj (Hneg _ _ _ _) Hzero))); reflexivity.
Defined.

(** The scenario powertrain in neutral, after one earlier [Update]: at shaft
    speed 100 and full throttle the shaft torque is within 1e-15 of zero. *)
Lemma neutral_decouples_witness :
  Qabs 100 <= 1e-15 * 1e20 /\
  Qabs (Powertrain.m_shaftTorque
          (Powertrain.Update Powertrain.scenario
             (Powertrain.after_neutral Powertrain.scenario
                Powertrain.scenario_start [(0, 1, 50)])
             1 1 100)) <= 1e-15.
Proof.
  split; [vm_compute; discriminate |].
  apply (neutral_decouples Powertrain.scenario Powertrain.scenario_start
           [(0, 1, 50)] 1 1 100 1e-15); vm_compute; discriminate.
Defined.

(** C1 fails as stated, on doubles.  With maximum torque 1, maximum speed
    49 and gear ratio 1, [Update(0, 1, 49 * 1)] computes
    [1 - 49 * (1 / 49)], which is 2^-53 and not 0: the quotient and the
    product are rounded.  With a maximum speed of 0 the curve divides by
    zero: [Update(0, 0, 0)] leaves a shaft torque that is NaN, not 0, and
    [Update(0, 1, 0)] a motor torque that is NaN, not the maximum torque.
    The gear ratio is not zero in either case. *)
Lemma torque_curve_binary64_counterexample :
  (Binary64.equal
     (Binary64.m_current_gear_ratio (Binary64.start Binary64.motor_49)) 0
   = false /\
   Binary64.equal
     (Binary64.m_motorTorque
        (Binary64.Update Binary64.motor_49 (Binary64.start Binary64.motor_49)
           0 1
           (Binary64.GetMaxSpeed Binary64.motor_49
            * Binary64.m_current_gear_ratio
                (Binary64.start Binary64.motor_49))))
     0 = false) /\
  (Binary64.equal
     (Binary64.m_current_gear_ratio (Binary64.start Binary64.motor_0)) 0
   = false /\
   Binary64.equal
     (Binary64.m_shaftTorque
        (Binary64.Update Binary64.motor_0 (Binary64.start Binary64.motor_0)
           0 0 0))
     0 = false /\
   Binary64.equal
     (Binary64.m_motorTorque
        (Binary64.Update Binary64.motor_0 (Binary64.start Binary64.motor_0)
           0 1 0))
     (Binary64.GetMaxTorque Binary64.motor_0) = false).
Proof. repeat split; vm_compute; reflexivity. Qed.

(** C5 fails as stated.  In neutral, [Update(0, 1, 1e20)] leaves a motor
    speed of exactly 1 rad/s, in exact arithmetic and on doubles alike: the
    motor speed is not near zero "for any shaft speed", it is the shaft
    speed divided by 1e20. *)
Lemma neutral_motor_speed_counterexample :
  Powertrain.m_motorSpeed
    (Powertrain.Update Powertrain.scenario
       (Powertrain.SetDriveMode Powertrain.scenario Powertrain.scenario_start
          Powertrain.NEUTRAL)
       0 1 1e20) == 1 /\
  ~ Qabs (Powertrain.m_motorSpeed
            (Powertrain.Update Powertrain.scenario
               (Powertrain.SetDriveMode Powertrain.scenario
                  Powertrain.scenario_start Powertrain.NEUTRAL)
               0 1 1e20)) < 1 /\
  Binary64.equal
    (Binary64.m_motorSpeed
       (Binary64.Update Binary64.scenario
          (Binary64.SetDriveMode Binary64.scenario
             (Binary64.start Binary64.scenario) Powertrain.NEUTRAL)
          0 1 1e20))
    1 = true.
Proof.
  split; [vm_compute; reflexivity |].
  split; [vm_compute; discriminate | vm_compute; reflexivity].
Qed.

(* ================================================================== *)
(** * Properties of the per-wheel dispatch *)
(* ================================================================== *)

(** The [switch] on a value that is none of the four enumerators takes the
    [default] branch. *)
Lemma switch_wheel_default {A : Type} (which : ChWheelId) (a b c d e : A) :
  ~ valid_wheel which -> switch_wheel which a b c d e = e.
Proof.
  unfold valid_wheel, switch_wheel. intro H.
  destruct (Z.eqb_spec which FRONT_LEFT); [tauto |].
  destruct (Z.eqb_spec which FRONT_RIGHT); [tauto |].
  destruct (Z.eqb_spec which REAR_LEFT); [tauto |].
  destruct (Z.eqb_spec which REAR_RIGHT); [tauto |].
  reflexivity.
Qed.

(** The value 4 of the specification's example is not a wheel. *)
Lemma invalid_wheel_4 : ~ valid_wheel 4%Z.
Proof. unfold valid_wheel. intros [H | [H | [H | H]]]; discriminate H. Qed.

(* ================================================================== *)
(** * Properties of the driveline *)
(* ================================================================== *)

Section DrivelineProperties.
Import Physics Driveline.

(** [Initialize] on valid references and a registered chassis returns, and
    the differential it creates joins the differential box to the two axle
    shafts with the ratio of [GetDifferentialRatio]. *)
Lemma Initialize_returns m body sys left right :
  GetSystem body = Some sys ->
  exists d sys',
    Initialize m (Some body) (Some left) (Some right) = Returned (d, sys') /\
    ratio_ordinary (m_differential d) = GetDifferentialRatio m /\
    planet_carrier (m_differential d) = m_differentialbox d /\
    planet_shaft2 (m_differential d) = left /\
    planet_shaft3 (m_differential d) = right /\
    In (ItemPlanetary (m_differential d)) sys'.
Proof.
  intro Hsys. unfold Initialize. cbn [non_null assert bind deref].
  rewrite Hsys. cbn [non_null assert bind deref].
  eexists. eexists. split; [reflexivity |].
  cbn [m_differential m_differentialbox]. repeat split.
  unfold Add. apply in_or_app. right. left. reflexivity.
Qed.

(** Conversely [Initialize] returns only on such arguments. *)
Lemma Initialize_inv m chassis axle_L axle_R d sys' :
  Initialize m chassis axle_L axle_R = Returned (d, sys') ->
  exists body sys left right,
    chassis = Some body /\ GetSystem body = Some sys /\
    axle_L = Some left /\ axle_R = Some right.
Proof.
  unfold Initialize.
  destruct chassis as [body |]; [| discriminate].
  destruct axle_L as [left |]; [| discriminate].
  destruct axle_R as [right |]; [| discriminate].
  cbn [non_null assert bind deref].
  destruct (GetSystem body) as [sys |] eqn:Hsys; [| discriminate].
  intros _. now exists body, sys, left, right.
Qed.

(** C2.  [GetWheelTorque] returns 0 for FRONT_LEFT and for FRONT_RIGHT, the
    negated reaction torque that the planetary differential reports on its
    second member for REAR_LEFT and on its third member for REAR_RIGHT, and
    the sentinel -1 for every identifier that is none of the four wheels. *)
Theorem GetWheelTorque_dispatch (d : ChShaftsDriveline2WD) :
  GetWheelTorque d FRONT_LEFT = 0 /\
  GetWheelTorque d FRONT_RIGHT = 0 /\
  GetWheelTorque d REAR_LEFT = - GetTorqueReactionOn2 (m_differential d) /\
  GetWheelTorque d REAR_RIGHT = - GetTorqueReactionOn3 (m_differential d) /\
  (forall which, ~ valid_wheel which -> GetWheelTorque d which = -1).
Proof.
  unfold GetWheelTorque.
  repeat split.
  intros which H. now apply switch_wheel_default.
Qed.

(** C3.  When [Initialize(chassis, axleLeft, axleRight)] completes, the
    planetary constraint it has created and added to the system has the
    differential box as carrier, the two axle shafts as second and third
    member, and the ordinary transmission ratio -1, whatever the driveline
    model. *)
Theorem Initialize_differential_ratio m chassis axle_L axle_R d sys' :
  Initialize m chassis axle_L axle_R = Returned (d, sys') ->
  ratio_ordinary (m_differential d) = -1 /\
  planet_carrier (m_differential d) = m_differentialbox d /\
  Some (planet_shaft2 (m_differential d)) = axle_L /\
  Some (planet_shaft3 (m_differential d)) = axle_R /\
  In (ItemPlanetary (m_differential d)) sys'.
Proof.
  intro H.
  destruct (Initialize_inv _ _ _ _ _ _ H)
    as (body & sys & left & right & -> & Hsys & -> & ->).
  destruct (Initialize_returns m body sys left right Hsys)
    as (d0 & sys0 & H0 & Hr & Hc & H2 & H3 & Hin).
  rewrite H0 in H. injection H as <- <-.
  rewrite H2, H3. repeat split; assumption.
Qed.

(** C8.  The precondition of [Initialize] is that chassis, axleLeft and
    axleRight are not null and that the chassis is registered with a system.
    Under it the call returns, so no assertion fails; when it is violated the
    call ends in a failed assertion, and creates nothing.  No argument makes
    [Initialize] dereference a null pointer: the assertions come first. *)
Theorem Initialize_precondition m chassis axle_L axle_R :
  (precondition chassis axle_L axle_R ->
   exists d sys', Initialize m chassis axle_L axle_R = Returned (d, sys')) /\
  (~ precondition chassis axle_L axle_R ->
   Initialize m chassis axle_L axle_R = AssertionFailed) /\
  Initialize m chassis axle_L axle_R <> NullDereference.
Proof.
  unfold precondition.
  destruct chassis as [body |];
    [| repeat split;
       [ intros [[b [Hb _]] _]; discriminate Hb | discriminate ] ].
  destruct axle_L as [left |];
    [| repeat split; [ intros [_ [H _]]; now elim H | discriminate ] ].
  destruct axle_R as [right |];
    [| repeat split; [ intros [_ [_ H]]; now elim H | discriminate ] ].
  destruct (GetSystem body) as [sys |] eqn:Hsys.
  - destruct (Initialize_returns m body sys left right Hsys)
      as (d & sys' & H & _).
    repeat split.
    + intros _. now exists d, sys'.
    + intro Hn. exfalso. apply Hn. split.
      * exists body. split; [reflexivity | congruence].
      * split; discriminate.
    + rewrite H. discriminate.
  - assert (H : Initialize m (Some body) (Some left) (Some right)
                = AssertionFailed).
    { unfold Initialize. cbn [non_null assert bind deref].
      rewrite Hsys. reflexivity. }
    repeat split.
    + intros [[b [Hb Hs]] _]. injection Hb as <-. now elim Hs.
    + intros _. exact H.
    + rewrite H. discriminate.
Qed.

End DrivelineProperties.

(** The example driveline at the identifier 4: the sentinel; at REAR_LEFT,
    where the differential reports -30: the torque 30. *)
Lemma GetWheelTorque_dispatch_witness :
  ~ valid_wheel 4%Z /\
  Driveline.GetWheelTorque Driveline.example_driveline 4%Z = -1 /\
  Driveline.GetWheelTorque Driveline.example_driveline REAR_LEFT = - -30.
Proof.
  destruct (GetWheelTorque_dispatch Driveline.example_driveline)
    as (_ & _ & Hrl & _ & Hdefault).
  exact (conj invalid_wheel_4 (conj (Hdefault 4%Z invalid_wheel_4) Hrl)).
Defined.

(** [Initialize] on the example arguments completes, with ratio -1. *)
Lemma Initialize_differential_ratio_witness :
  exists d sys',
    Driveline.Initialize Driveline.example_model
      (Some Driveline.example_chassis)
      (Some Driveline.example_axle_L) (Some Driveline.example_axle_R)
    = Driveline.Returned (d, sys') /\
    Physics.ratio_ordinary (Driveline.m_differential d) = -1.
Proof.
  eexists. eexists. split; [reflexivity |].
  exact (proj1 (Initialize_differential_ratio Driveline.example_model
                  (Some Driveline.example_chassis)
                  (Some Driveline.example_axle_L)
                  (Some Driveline.example_axle_R) _ _ eq_refl)).
Defined.

(** The example arguments satisfy the precondition and [Initialize] returns;
    an unregistered chassis violates it and the assertion fails. *)
Lemma Initialize_precondition_witness :
  (Driveline.precondition (Some Driveline.example_chassis)
     (Some Driveline.example_axle_L) (Some Driveline.example_axle_R) /\
   exists d sys',
     Driveline.Initialize Driveline.example_model
       (Some Driveline.example_chassis)
       (Some Driveline.example_axle_L) (Some Driveline.example_axle_R)
     = Driveline.Returned (d, sys')) /\
  (~ Driveline.precondition (Some Driveline.unregistered_chassis)
       (Some Driveline.example_axle_L) (Some Driveline.example_axle_R) /\
   Driveline.Initialize Driveline.example_model
     (Some Driveline.unregistered_chassis)
     (Some Driveline.example_axle_L) (Some Driveline.example_axle_R)
   = Driveline.AssertionFailed).
Proof.
  assert (Hpre : Driveline.precondition (Some Driveline.example_chassis)
                   (Some Driveline.example_axle_L)
                   (Some Driveline.example_axle_R)).
  { split; [| split; discriminate].
    exists Driveline.example_chassis. split; [reflexivity | discriminate]. }
  assert (Hnot : ~ Driveline.precondition (Some Driveline.unregistered_chassis)
                     (Some Driveline.example_axle_L)
                     (Some Driveline.example_axle_R)).
  { intros [[b [Hb Hs]] _]. injection Hb as <-. now apply Hs. }
  split.
  - split; [exact Hpre |].
    exact (proj1 (Initialize_precondition Driveline.example_model _ _ _) Hpre).
  - split; [exact Hnot |].
    exact (proj1 (proj2 (Initialize_precondition Driveline.example_model _ _ _))
             Hnot).
Defined.

(* ================================================================== *)
(** * Properties of the vehicle assembly *)
(* ================================================================== *)

Section VehicleProperties.
Import Physics Suspension Vehicle.

(** C4.  For an identifier that is none of the four wheels, [GetWheelBody],
    [GetWheelPos], [GetWheelRot], [GetWheelLinVel] and [GetWheelAngVel]
    return what they return for FRONT_RIGHT, the body and state of the right
    spindle of the front suspension, and [GetWheelOmega], [GetSpringForce]
    and [GetSpringLength] return -1.  Every accessor is a total function of
    the identifier: it returns on each of them. *)
Theorem invalid_wheel_accessors (v : HMMWV_VehicleSolidAxle) (which : ChWheelId) :
  ~ valid_wheel which ->
  (GetWheelBody v which = GetWheelBody v FRONT_RIGHT /\
   GetWheelBody v which = GetSpindle (m_front_susp v) RIGHT) /\
  (GetWheelPos v which = GetWheelPos v FRONT_RIGHT /\
   GetWheelPos v which = GetSpindlePos (m_front_susp v) RIGHT) /\
  (GetWheelRot v which = GetWheelRot v FRONT_RIGHT /\
   GetWheelRot v which = GetSpindleRot (m_front_susp v) RIGHT) /\
  (GetWheelLinVel v which = GetWheelLinVel v FRONT_RIGHT /\
   GetWheelLinVel v which = GetSpindleLinVel (m_front_susp v) RIGHT) /\
  (GetWheelAngVel v which = GetWheelAngVel v FRONT_RIGHT /\
   GetWheelAngVel v which = GetSpindleAngVel (m_front_susp v) RIGHT) /\
  GetWheelOmega v which = -1 /\
  Vehicle.GetSpringForce v which = -1 /\
  GetSpringLength v which = -1.
Proof.
  intro H.
  unfold GetWheelBody, GetWheelPos, GetWheelRot, GetWheelLinVel,
    GetWheelAngVel, GetWheelOmega, Vehicle.GetSpringForce, GetSpringLength.
  rewrite !(switch_wheel_default which) by exact H.
  repeat split.
Qed.

(** C6.  One call of the vehicle's [Update] on (time, throttle, steering,
    braking, four tire forces) makes exactly these ten calls, once each and
    in this order: [ApplySteering(0.08 * steering)] on the front suspension,
    the powertrain's [Update(time, throttle)], [ApplyTireForce] on the four
    spindles, and [ApplyBrakeModulation(braking)] on the four brakes.  So no
    steering reaches the rear suspension, the spindle of each wheel [w]
    receives [tire_forces[w]] and nothing else through the suspension that
    owns it, and every brake receives [braking] and nothing else. *)
Theorem Update_single_pass time throttle steering braking f_FL f_FR f_RL f_RR :
  exists calls,
    Update time throttle steering braking [f_FL; f_FR; f_RL; f_RR]
    = Some calls /\
    calls = [ ApplySteering front_susp (0.08 * steering);
              PowertrainUpdate time throttle;
              ApplyTireForce front_susp RIGHT f_FR;
              ApplyTireForce front_susp LEFT f_FL;
              ApplyTireForce rear_susp RIGHT f_RR;
              ApplyTireForce rear_susp LEFT f_RL;
              ApplyBrakeModulation front_right_brake braking;
              ApplyBrakeModulation front_left_brake braking;
              ApplyBrakeModulation rear_right_brake braking;
              ApplyBrakeModulation rear_left_brake braking ] /\
    (forall s displ,
        In (ApplySteering s displ) calls ->
        s = front_susp /\ displ = 0.08 * steering) /\
    (forall which s side f,
        wheel_spindle which = Some (s, side) ->
        (In (ApplyTireForce s side f) calls <->
         at_wheel [f_FL; f_FR; f_RL; f_RR] which = Some f)) /\
    (forall b braking',
        In (ApplyBrakeModulation b braking') calls <-> braking' = braking).
Proof.
  eexists. split; [reflexivity |]. split; [reflexivity |].
  split; [| split].
  - intros s displ Hin. cbn [In app] in Hin.
    repeat (destruct Hin as [Hin | Hin]; [try discriminate Hin |]);
      [| contradiction].
    injection Hin as <- <-. split; reflexivity.
  - intros which s side f Hw.
    unfold wheel_spindle, switch_wheel in Hw.
    destruct (Z.eqb_spec which FRONT_LEFT) as [-> |];
      [| destruct (Z.eqb_spec which FRONT_RIGHT) as [-> |];
         [| destruct (Z.eqb_spec which REAR_LEFT) as [-> |];
            [| destruct (Z.eqb_spec which REAR_RIGHT) as [-> |];
               [| discriminate Hw]]]];
      injection Hw as <- <-; cbn [In app at_wheel nth_error Z.to_nat
        FRONT_LEFT FRONT_RIGHT REAR_LEFT REAR_RIGHT Pos.to_nat Pos.iter_op
        Nat.add]; (split;
      [ intro Hin;
        repeat (destruct Hin as [Hin | Hin];
                [try discriminate Hin; try (injection Hin as <-; reflexivity) |]);
        contradiction
      | intro Hf; injection Hf as <-; tauto ]).
  - intros b v. cbn [In app]. split.
    + intro Hin.
      repeat (destruct Hin as [Hin | Hin];
              [try discriminate Hin; try (injection Hin as _ <-; reflexivity) |]);
        contradiction.
    + intros ->. destruct b; tauto.
Qed.

End VehicleProperties.

(** The example vehicle at the identifier 4 of the specification. *)
Lemma invalid_wheel_accessors_witness :
  ~ valid_wheel 4%Z /\
  Vehicle.GetWheelBody Vehicle.example_vehicle 4%Z
  = Vehicle.GetWheelBody Vehicle.example_vehicle FRONT_RIGHT /\
  Vehicle.GetWheelOmega Vehicle.example_vehicle 4%Z = -1.
Proof.
  destruct (invalid_wheel_accessors Vehicle.example_vehicle 4%Z invalid_wheel_4)
    as ((Hbody & _) & _ & _ & _ & _ & Homega & _).
  exact (conj invalid_wheel_4 (conj Hbody Homega)).
Defined.

(* ================================================================== *)
(** * Properties of the suspension hardpoints *)
(* ================================================================== *)

Section SuspensionProperties.
Import Suspension.

(** C7.  For both suspension variants and every hardpoint: the point used
    for the right side is the one the table gives, (x, y, z), and the point
    used for the left side is (x, -y, z); the x and z coordinates of the two
    sides are the same. *)
Theorem left_hardpoints_mirrored (t : Variant)
  (getLocation : PointId t -> ChVector) (which : PointId t) :
  exists right left,
    hardpoint t getLocation RIGHT which = Some right /\
    right = getLocation which /\
    hardpoint t getLocation LEFT which = Some left /\
    vx left = vx right /\
    vy left = - vy right /\
    vz left = vz right.
Proof.
  exists (getLocation which), (mirror (getLocation which)).
  destruct t; destruct which; repeat split.
Qed.

End SuspensionProperties.

(* ================================================================== *)
(** * Further properties of the same functions *)
(* ================================================================== *)

(** X1.  The drive-mode state machine: [SetDriveMode] records the mode and
    caches the forward ratio, the reverse ratio or 1e20; the last call
    decides, whatever came before; [Initialize] caches the forward ratio and
    changes nothing else. *)
Theorem SetDriveMode_state_machine (p : Powertrain.SimplePowertrain)
  (pt : Powertrain.ChSimplePowertrain) (mode mode' : Powertrain.DriveMode) :
  Powertrain.m_drive_mode (Powertrain.SetDriveMode p pt mode) = mode /\
  Powertrain.m_current_gear_ratio (Powertrain.SetDriveMode p pt mode)
  = match mode with
    | Powertrain.FORWARD => Powertrain.GetForwardGearRatio p
    | Powertrain.REVERSE => Powertrain.GetReverseGearRatio p
    | Powertrain.NEUTRAL => 1e20
    end /\
  Powertrain.SetDriveMode p (Powertrain.SetDriveMode p pt mode') mode
  = Powertrain.SetDriveMode p pt mode /\
  Powertrain.Initialize p pt
  = Powertrain.set_current_gear_ratio pt (Powertrain.GetForwardGearRatio p) /\
  Powertrain.m_drive_mode (Powertrain.Initialize p pt)
  = Powertrain.m_drive_mode pt.
Proof. destruct mode, mode'; repeat split. Qed.

(** X2.  [Update] keeps no memory beyond the cached gear ratio: from two
    states with the same drive mode and the same cached ratio, the same
    arguments leave the same state; so repeating a call changes nothing. *)
Theorem Update_recomputes_from_scratch (p : Powertrain.SimplePowertrain)
  (pt pt' : Powertrain.ChSimplePowertrain) (time throttle shaft_speed : double) :
  Powertrain.m_drive_mode pt = Powertrain.m_drive_mode pt' ->
  Powertrain.m_current_gear_ratio pt = Powertrain.m_current_gear_ratio pt' ->
  Powertrain.Update p pt time throttle shaft_speed
  = Powertrain.Update p pt' time throttle shaft_speed /\
  Powertrain.Update p (Powertrain.Update p pt time throttle shaft_speed)
    time throttle shaft_speed
  = Powertrain.Update p pt time throttle shaft_speed.
Proof.
  destruct pt as [mode ratio ms mt st], pt' as [mode' ratio' ms' mt' st'].
  cbn [Powertrain.m_drive_mode Powertrain.m_current_gear_ratio].
  intros <- <-. split; reflexivity.
Qed.

(** A fresh powertrain and one that has already run, both in forward gear. *)
Lemma Update_recomputes_from_scratch_witness :
  Powertrain.Update Powertrain.scenario Powertrain.scenario_start 0 0.5 100
  = Powertrain.Update Powertrain.scenario
      (Powertrain.Update Powertrain.scenario Powertrain.scenario_start 0 1 2400)
      0 0.5 100.
Proof.
  exact (proj1 (Update_recomputes_from_scratch Powertrain.scenario
                  Powertrain.scenario_start
                  (Powertrain.Update Powertrain.scenario
                     Powertrain.scenario_start 0 1 2400)
                  0 0.5 100 eq_refl eq_refl)).
Defined.

(** The end-to-end scenario of the specification: forward ratio 4,
    maximum torque 300, maximum speed 600, shaft at rest; at throttle 0.5 the
    motor torque is 150 and the shaft torque 37.5, and at steering 0 the
    displacement applied to the front suspension is 0. *)
Theorem scenario_end_to_end (f : Vehicle.ChTireForce) :
  Powertrain.m_motorTorque
    (Powertrain.Update Powertrain.scenario Powertrain.scenario_start 0 0.5 0)
  == 150 /\
  Powertrain.m_shaftTorque
    (Powertrain.Update Powertrain.scenario Powertrain.scenario_start 0 0.5 0)
  == 37.5 /\
  exists displ rest,
    Vehicle.Update 0 0.5 0 0 [f; f; f; f]
    = Some (Vehicle.ApplySteering Vehicle.front_susp displ :: rest) /\
    displ == 0.
Proof.
  split; [vm_compute; reflexivity |].
  split; [vm_compute; reflexivity |].
  eexists. eexists. split; [reflexivity | vm_compute; reflexivity].
Qed.

(** X4.  A completed [Initialize] of the driveline has added exactly four
    items to the system of the chassis, in this order: the driveshaft and
    the differential box with their inertias, the conical gear between them
    with its transmission ratio, its truss and its two directions, and the
    differential. *)
Theorem Initialize_adds_four_items (m : Driveline.Driveline2WD)
  (body : Physics.ChBody) (sys : Physics.ChSystem)
  (left right : Physics.ChShaft) d sys' :
  Physics.GetSystem body = Some sys ->
  Driveline.Initialize m (Some body) (Some left) (Some right)
  = Driveline.Returned (d, sys') ->
  sys' = sys ++ [ Physics.ItemShaft (Driveline.m_driveshaft d);
                  Physics.ItemShaft (Driveline.m_differentialbox d);
                  Physics.ItemGearbox (Driveline.m_conicalgear d);
                  Physics.ItemPlanetary (Driveline.m_differential d) ] /\
  Physics.shaft_inertia (Driveline.m_driveshaft d)
  = Driveline.GetDriveshaftInertia m /\
  Physics.shaft_inertia (Driveline.m_differentialbox d)
  = Driveline.GetDifferentialBoxInertia m /\
  Physics.gear_ratio (Driveline.m_conicalgear d)
  = Driveline.GetConicalGearRatio m /\
  Physics.gear_shaft1 (Driveline.m_conicalgear d) = Driveline.m_driveshaft d /\
  Physics.gear_shaft2 (Driveline.m_conicalgear d)
  = Driveline.m_differentialbox d /\
  Physics.gear_body (Driveline.m_conicalgear d) = Physics.body_name body /\
  Physics.gear_dir1 (Driveline.m_conicalgear d) = Driveline.m_dir_motor_block m /\
  Physics.gear_dir2 (Driveline.m_conicalgear d) = Driveline.m_dir_axle m.
Proof.
  intros Hsys. unfold Driveline.Initialize.
  cbn [non_null Driveline.assert Driveline.bind Driveline.deref].
  rewrite Hsys. cbn [non_null Driveline.assert Driveline.bind Driveline.deref].
  intro H. injection H as <- <-.
  unfold Physics.Add. rewrite <- !app_assoc.
  repeat split.
Qed.

(** The example arguments: the empty system of the chassis ends with four
    items. *)
Lemma Initialize_adds_four_items_witness :
  exists d sys',
    Driveline.Initialize Driveline.example_model
      (Some Driveline.example_chassis)
      (Some Driveline.example_axle_L) (Some Driveline.example_axle_R)
    = Driveline.Returned (d, sys') /\
    length sys' = 4%nat.
Proof.
  eexists. eexists. split; [reflexivity |].
  rewrite (proj1 (Initialize_adds_four_items Driveline.example_model
                    Driveline.example_chassis [] Driveline.example_axle_L
                    Driveline.example_axle_R _ _ eq_refl eq_refl)).
  reflexivity.
Defined.

(** X5.  On each of the four wheels every accessor of the vehicle reads the
    suspension and side that own the wheel's spindle: FRONT_LEFT and
    FRONT_RIGHT the front suspension, REAR_LEFT and REAR_RIGHT the rear one,
    left and right accordingly. *)
Theorem valid_wheel_accessors (v : Vehicle.HMMWV_VehicleSolidAxle)
  (which : ChWheelId) (s : Vehicle.SuspensionMember) (side : Side) :
  Vehicle.wheel_spindle which = Some (s, side) ->
  valid_wheel which /\
  Vehicle.GetWheelBody v which
  = Suspension.GetSpindle (Vehicle.suspension_of v s) side /\
  Vehicle.GetWheelPos v which
  = Suspension.GetSpindlePos (Vehicle.suspension_of v s) side /\
  Vehicle.GetWheelRot v which
  = Suspension.GetSpindleRot (Vehicle.suspension_of v s) side /\
  Vehicle.GetWheelLinVel v which
  = Suspension.GetSpindleLinVel (Vehicle.suspension_of v s) side /\
  Vehicle.GetWheelAngVel v which
  = Suspension.GetSpindleAngVel (Vehicle.suspension_of v s) side /\
  Vehicle.GetWheelOmega v which
  = Suspension.GetAxleSpeed (Vehicle.suspension_of v s) side /\
  Vehicle.GetSpringForce v which
  = Suspension.GetSpringForce (Vehicle.suspension_of v s) side /\
  Vehicle.GetSpringLength v which
  = Suspension.GetSpringLen (Vehicle.suspension_of v s) side.
Proof.
  unfold Vehicle.wheel_spindle, switch_wheel, valid_wheel. intro Hw.
  destruct (Z.eqb_spec which FRONT_LEFT) as [-> |];
    [| destruct (Z.eqb_spec which FRONT_RIGHT) as [-> |];
       [| destruct (Z.eqb_spec which REAR_LEFT) as [-> |];
          [| destruct (Z.eqb_spec which REAR_RIGHT) as [-> |];
             [| discriminate Hw]]]];
    injection Hw as <- <-; repeat split; tauto.
Qed.

(** The rear left wheel of the example vehicle turns with the left axle of
    the rear suspension. *)
Lemma valid_wheel_accessors_witness :
  Vehicle.wheel_spindle REAR_LEFT = Some (Vehicle.rear_susp, LEFT) /\
  Vehicle.GetWheelOmega Vehicle.example_vehicle REAR_LEFT
  = Suspension.GetAxleSpeed
      (Vehicle.m_rear_susp Vehicle.example_vehicle) LEFT.
Proof.
  split; [reflexivity |].
  exact (proj1 (proj2 (proj2 (proj2 (proj2 (proj2 (proj2
           (valid_wheel_accessors Vehicle.example_vehicle REAR_LEFT
              Vehicle.rear_susp LEFT eq_refl)))))))).
Defined.

(** On doubles, the scenario values of the specification are exact:
    with forward ratio 4, maximum torque 300 and maximum speed 600,
    [Update(0, 0.5, 0)] leaves motor torque 150 and shaft torque 37.5,
    throttle 0 leaves shaft torque 0, throttle 1 at rest leaves the maximum
    torque, and throttle 1 at shaft speed [600 * 4] leaves motor torque 0. *)
Theorem scenario_binary64 :
  Binary64.equal
    (Binary64.m_motorTorque
       (Binary64.Update Binary64.scenario (Binary64.start Binary64.scenario)
          0 0.5 0)) 150 = true /\
  Binary64.equal
    (Binary64.m_shaftTorque
       (Binary64.Update Binary64.scenario (Binary64.start Binary64.scenario)
          0 0.5 0)) 37.5 = true /\
  Binary64.equal
    (Binary64.m_shaftTorque
       (Binary64.Update Binary64.scenario (Binary64.start Binary64.scenario)
          0 0 1234)) 0 = true /\
  Binary64.equal
    (Binary64.m_motorTorque
       (Binary64.Update Binary64.scenario (Binary64.start Binary64.scenario)
          0 1 0)) (Binary64.GetMaxTorque Binary64.scenario) = true /\
  Binary64.equal
    (Binary64.m_motorTorque
       (Binary64.Update Binary64.scenario (Binary64.start Binary64.scenario)
          0 1
          (Binary64.GetMaxSpeed Binary64.scenario
           * Binary64.m_current_gear_ratio
               (Binary64.start Binary64.scenario)))%float) 0 = true.
Proof. repeat split; vm_compute; reflexivity. Qed.

(* ================================================================== *)
(** * The powertrain over whole runs and in its operating range *)
(* ================================================================== *)

Section DriverProperties.
Import Powertrain Driver.

Variable p : SimplePowertrain.





(** X9.  Reverse mirrors forward: when the reverse ratio is the opposite of
    a non-zero forward ratio, [Update] in REVERSE at shaft speed [-s] leaves
    the motor speed and the motor torque that [Update] in FORWARD leaves at
    shaft speed [s], with the same throttle, and the opposite shaft
    torque. *)
Theorem reverse_mirrors_forward pt pt' time time' throttle shaft_speed :
  ~ GetForwardGearRatio p == 0 ->
  GetReverseGearRatio p == - GetForwardGearRatio p ->
  m_motorSpeed
    (Update p (SetDriveMode p pt' REVERSE) time' throttle (- shaft_speed))
  == m_motorSpeed
       (Update p (SetDriveMode p pt FORWARD) time throttle shaft_speed) /\
  m_motorTorque
    (Update p (SetDriveMode p pt' REVERSE) time' throttle (- shaft_speed))
  == m_motorTorque
       (Update p (SetDriveMode p pt FORWARD) time throttle shaft_speed) /\
  m_shaftTorque
    (Update p (SetDriveMode p pt' REVERSE) time' throttle (- shaft_speed))
  == - m_shaftTorque
         (Update p (SetDriveMode p pt FORWARD) time throttle shaft_speed).
Proof.
  intros Hf Hrev.
  rewrite !Update_shaftTorque, !Update_motorTorque, !Update_motorSpeed.
  rewrite (SetDriveMode_gear_ratio p pt' REVERSE),
          (SetDriveMode_gear_ratio p pt FORWARD).
  assert (Hms : - shaft_speed / GetReverseGearRatio p
                == shaft_speed / GetForwardGearRatio p).
  { rewrite Hrev. field. exact Hf. }
  split; [exact Hms |]. split.
  - rewrite Hms. reflexivity.
  - rewrite Hms.
    set (torque := (GetMaxTorque p
                    - shaft_speed / GetForwardGearRatio p
                      * (GetMaxTorque p / GetMaxSpeed p)) * throttle).
    clearbody torque. rewrite Hrev. field. exact Hf.
Qed.

End DriverProperties.


(** The scenario powertrain: the reverse ratio -4 is the opposite of the
    forward ratio 4. *)
Lemma reverse_mirrors_forward_witness :
  Powertrain.m_shaftTorque
    (Powertrain.Update Powertrain.scenario
       (Powertrain.SetDriveMode Powertrain.scenario Powertrain.scenario_start
          Powertrain.REVERSE) 0 1 (- 800))
  == - Powertrain.m_shaftTorque
         (Powertrain.Update Powertrain.scenario
            (Powertrain.SetDriveMode Powertrain.scenario
               Powertrain.scenario_start Powertrain.FORWARD) 0 1 800).
Proof.
  apply (reverse_mirrors_forward Powertrain.scenario Powertrain.scenario_start
           Powertrain.scenario_start 0 0 1 800).
  - vm_compute; discriminate.
  - reflexivity.
Defined.

(* ================================================================== *)
(** * Properties of the vehicle's [Initialize] and [Update] *)
(* ================================================================== *)

Section AssemblyProperties.
Import Physics Suspension Assembly.

(** X10.  The vehicle's [Update] reads the four entries 0 to 3 of
    [tire_forces] and no other: with fewer than four entries it indexes the
    vector out of range (and only then), and entries after the fourth never
    change the calls it makes. *)
Theorem Update_needs_four_tire_forces time throttle steering braking
  (tire_forces : Vehicle.ChTireForces) :
  (Vehicle.Update time throttle steering braking tire_forces = None
   <-> (length tire_forces < 4)%nat) /\
  (forall a b c d rest,
     tire_forces = a :: b :: c :: d :: rest ->
     Vehicle.Update time throttle steering braking tire_forces
     = Vehicle.Update time throttle steering braking [a; b; c; d]).
Proof.
  split.
  - destruct tire_forces as [| a [| b [| c [| d rest]]]]; cbn;
      split; try reflexivity; try lia; try discriminate.
  - intros a b c d rest ->. reflexivity.
Qed.

(** X11.  When the chassis is in a system and the rear suspension has both
    axle shafts, the vehicle's [Initialize] runs to its end: after the calls
    up to the driveline's (each wheel initialized on the body that
    [GetWheelBody] returns for it) it initializes the powertrain on the
    driveshaft that the driveline has just created and added to the
    chassis's system, then the four brakes, each on the revolute joint of
    its own suspension and side; and the differential joins the rear left
    and rear right axle shafts: the vehicle is rear-wheel driven. *)
Theorem Initialize_drives_rear_axle (v : VehicleParts) chassisPos sys left right :
  GetSystem (m_chassis v) = Some sys ->
  GetAxle (rear_parts v) LEFT = Some left ->
  GetAxle (rear_parts v) RIGHT = Some right ->
  exists d sys',
    Initialize v chassisPos
    = (calls_up_to_driveline v chassisPos
       ++ [PowertrainInitialize (Driveline.m_driveshaft d);
           BrakeInitialize Vehicle.front_right_brake (GetRevolute (front_parts v) RIGHT);
           BrakeInitialize Vehicle.front_left_brake (GetRevolute (front_parts v) LEFT);
           BrakeInitialize Vehicle.rear_right_brake (GetRevolute (rear_parts v) RIGHT);
           BrakeInitialize Vehicle.rear_left_brake (GetRevolute (rear_parts v) LEFT)],
       Driveline.Returned (d, sys')) /\
    planet_shaft2 (Driveline.m_differential d) = left /\
    planet_shaft3 (Driveline.m_differential d) = right /\
    In (ItemShaft (Driveline.m_driveshaft d)) sys'.
Proof.
  intros Hsys HL HR.
  unfold Initialize, calls_up_to_driveline. rewrite HL, HR.
  unfold Driveline.Initialize.
  cbn [non_null Driveline.assert Driveline.bind Driveline.deref].
  rewrite Hsys. cbn [non_null Driveline.assert Driveline.bind Driveline.deref].
  eexists. eexists. split; [reflexivity |].
  cbn [Driveline.m_differential Driveline.m_driveshaft].
  split; [reflexivity |]. split; [reflexivity |].
  unfold Add.
  apply in_or_app. left. apply in_or_app. left. apply in_or_app. left.
  apply in_or_app. right. left. reflexivity.
Qed.

(** X12.  When the chassis is in no system or the rear suspension lacks an
    axle shaft (an undriven suspension), the vehicle's [Initialize] stops in
    the driveline's assertion: the chassis, both suspensions and the four
    wheels have been initialized, the powertrain and the four brakes never
    are. *)
Theorem Initialize_stops_at_driveline (v : VehicleParts) chassisPos :
  GetSystem (m_chassis v) = None \/
  GetAxle (rear_parts v) LEFT = None \/
  GetAxle (rear_parts v) RIGHT = None ->
  Initialize v chassisPos
  = (calls_up_to_driveline v chassisPos, Driveline.AssertionFailed) /\
  filter after_driveline (fst (Initialize v chassisPos)) = [].
Proof.
  intro H.
  assert (Hfail : Driveline.Initialize (m_driveline v) (Some (m_chassis v))
                    (GetAxle (rear_parts v) LEFT) (GetAxle (rear_parts v) RIGHT)
                  = Driveline.AssertionFailed).
  { unfold Driveline.Initialize.
    destruct (GetAxle (rear_parts v) LEFT) as [l |];
      destruct (GetAxle (rear_parts v) RIGHT) as [r |];
      cbn [non_null Driveline.assert Driveline.bind Driveline.deref];
      try reflexivity.
    destruct (GetSystem (m_chassis v)) as [s |]; [| reflexivity].
    destruct H as [H | [H | H]]; discriminate H. }
  unfold Initialize. rewrite Hfail. split; reflexivity.
Qed.

End AssemblyProperties.

(** The precondition and the outcome of X11 on the example vehicle with a
    driven rear suspension. *)
Lemma Initialize_drives_rear_axle_witness :
  Physics.GetSystem (Assembly.m_chassis (Assembly.example true)) = Some [] /\
  exists d sys',
    snd (Assembly.Initialize (Assembly.example true)
           {| Assembly.pos := {| vx := 0; vy := 0; vz := 0 |};
              Assembly.rot := {| e0 := 1; e1 := 0; e2 := 0; e3 := 0 |} |})
    = Driveline.Returned (d, sys') /\
    Physics.planet_shaft2 (Driveline.m_differential d) = Driveline.example_axle_L /\
    Physics.planet_shaft3 (Driveline.m_differential d) = Driveline.example_axle_R.
Proof.
  split; [reflexivity |].
  destruct (Initialize_drives_rear_axle (Assembly.example true)
              {| Assembly.pos := {| vx := 0; vy := 0; vz := 0 |};
                 Assembly.rot := {| e0 := 1; e1 := 0; e2 := 0; e3 := 0 |} |}
              [] Driveline.example_axle_L Driveline.example_axle_R
              eq_refl eq_refl eq_refl)
    as (d & sys' & Hcalls & H2 & H3 & _).
  exists d, sys'. rewrite Hcalls. split; [reflexivity |]. split; assumption.
Defined.

(** The precondition and the outcome of X12 on the example vehicle with an
    undriven rear suspension. *)
Lemma Initialize_stops_at_driveline_witness :
  Assembly.GetAxle (Assembly.rear_parts (Assembly.example false)) LEFT = None /\
  snd (Assembly.Initialize (Assembly.example false)
         {| Assembly.pos := {| vx := 0; vy := 0; vz := 0 |};
            Assembly.rot := {| e0 := 1; e1 := 0; e2 := 0; e3 := 0 |} |})
  = Driveline.AssertionFailed.
Proof.
  split; [reflexivity |].
  rewrite (proj1 (Initialize_stops_at_driveline (Assembly.example false)
                    {| Assembly.pos := {| vx := 0; vy := 0; vz := 0 |};
                       Assembly.rot := {| e0 := 1; e1 := 0; e2 := 0; e3 := 0 |} |}
                    (or_intror (or_introl eq_refl)))).
  reflexivity.
Defined.

(* ================================================================== *)
(** * Properties of the simulation loop of the spherical joint test *)
(* ================================================================== *)

(** Linear arithmetic with the halves of the time step. *)
Ltac halves :=
  unfold Qdiv in *; change (/ 2) with (1 # 2) in *;
  unfold SphericalTest.timeRecord, SphericalTest.printTimeStep in *; lra.

Section LoopProperties.
Import SphericalTest.

Variable device : nat -> bool.
Variable dt : double.

Lemma Qnat_S n : Qnat (S n) == Qnat n + 1.
Proof.
  unfold Qnat. rewrite Nat2Z.inj_succ. unfold Z.succ.
  rewrite inject_Z_plus. reflexivity.
Qed.

Lemma Qnat_0 : Qnat 0 == 0.
Proof. reflexivity. Qed.

Lemma Qnat_above (x : Q) : exists b, x < Qnat (S b).
Proof.
  exists (Z.to_nat (Qceiling x)).
  rewrite Qnat_S. unfold Qnat.
  pose proof (Qle_ceiling x) as H.
  assert (H0 : inject_Z (Qceiling x)
               <= inject_Z (Z.of_nat (Z.to_nat (Qceiling x)))).
  { rewrite <- Zle_Qle. lia. }
  lra.
Qed.

(** What the three parts of the body touch. *)
Lemma timeElapsed_body outf st : timeElapsed (body outf dt st) = timeElapsed st + dt.
Proof.
  unfold body, advance, report_recorded, write_row.
  repeat match goal with |- context [if ?c then _ else _] => destruct c end;
    reflexivity.
Qed.

Lemma steps_body outf st : steps (body outf dt st) = S (steps st).
Proof.
  unfold body, advance, report_recorded, write_row.
  repeat match goal with |- context [if ?c then _ else _] => destruct c end;
    reflexivity.
Qed.

(** More fuel does not change a result. *)
Lemma simulate_more_fuel animate outf fuel : forall st st' extra,
  simulate fuel animate outf device dt st = Some st' ->
  simulate (fuel + extra) animate outf device dt st = Some st'.
Proof.
  induction fuel as [| fuel IH]; intros st st' extra H; [discriminate H |].
  cbn [simulate Nat.add] in *.
  destruct (continueSimulation animate device dt (body outf dt st)).
  - now apply IH.
  - exact H.
Qed.

(** The rule of the loop: an invariant of the states in which the body is
    entered gives a property of the state in which the loop is left. *)
Lemma simulate_rule animate outf (P R : Loop -> Prop) :
  (forall st, P st ->
     if continueSimulation animate device dt (body outf dt st)
     then P (body outf dt st) else R (body outf dt st)) ->
  forall fuel st st',
    P st -> simulate fuel animate outf device dt st = Some st' -> R st'.
Proof.
  intros Hbody. induction fuel as [| fuel IH]; intros st st' HP H;
    [discriminate H |].
  cbn [simulate] in H. specialize (Hbody st HP).
  destruct (continueSimulation animate device dt (body outf dt st)).
  - exact (IH _ _ Hbody H).
  - injection H as <-. exact Hbody.
Qed.

(** Without animation and with a positive step, the loop that is entered at
    a time within the recording horizon ends within any number of steps
    that takes the time beyond it. *)
Lemma simulate_ends outf (Hdt : 0 < dt) : forall b st,
  timeElapsed st <= timeRecord + dt / 2 ->
  timeRecord + dt / 2 < timeElapsed st + Qnat (S b) * dt ->
  exists n st',
    (1 <= n <= S b)%nat /\
    (forall fuel, (n <= fuel)%nat ->
       simulate fuel false outf device dt st = Some st') /\
    (forall fuel, (fuel < n)%nat ->
       simulate fuel false outf device dt st = None) /\
    steps st' = (steps st + n)%nat /\
    timeElapsed st' == timeElapsed st + Qnat n * dt /\
    timeRecord + dt / 2 < timeElapsed st' /\
    timeElapsed st' <= timeRecord + 3 * dt / 2.
Proof.
  induction b as [| b IH]; intros st Hin Hout.
  - exists 1%nat, (body outf dt st).
    assert (Hstop : continueSimulation false device dt (body outf dt st) = false).
    { unfold continueSimulation. rewrite timeElapsed_body.
      destruct (Qle_bool (timeElapsed st + dt) (timeRecord + dt / 2)) eqn:E;
        [| reflexivity].
      apply Qle_bool_iff in E. rewrite Qnat_S, Qnat_0 in Hout. halves. }
    split; [lia |]. split; [| split; [| split; [| split; [| split]]]].
    + intros [| fuel] Hf; [lia |]. cbn [simulate]. now rewrite Hstop.
    + intros fuel Hf. assert (fuel = 0%nat) as -> by lia. reflexivity.
    + rewrite steps_body. lia.
    + rewrite timeElapsed_body. rewrite Qnat_S, Qnat_0. halves.
    + rewrite timeElapsed_body. rewrite Qnat_S, Qnat_0 in Hout. halves.
    + rewrite timeElapsed_body. halves.
  - destruct (continueSimulation false device dt (body outf dt st)) eqn:Hc.
    + assert (Hin' : timeElapsed (body outf dt st) <= timeRecord + dt / 2).
      { unfold continueSimulation in Hc. now apply Qle_bool_iff in Hc. }
      destruct (IH (body outf dt st) Hin') as (n & st' & Hn & Hsome & Hnone & Hs & Ht & Hlo & Hhi).
      { rewrite timeElapsed_body. rewrite Qnat_S in Hout. halves. }
      exists (S n), st'.
      split; [lia |]. split; [| split; [| split; [| split; [| split]]]].
      * intros [| fuel] Hf; [lia |]. cbn [simulate]. rewrite Hc.
        apply Hsome. lia.
      * intros [| fuel] Hf; [reflexivity |]. cbn [simulate]. rewrite Hc.
        apply Hnone. lia.
      * rewrite Hs, steps_body. lia.
      * rewrite Ht, timeElapsed_body, Qnat_S. ring.
      * exact Hlo.
      * exact Hhi.
    + exists 1%nat, (body outf dt st).
      split; [lia |]. split; [| split; [| split; [| split; [| split]]]].
      * intros [| fuel] Hf; [lia |]. cbn [simulate]. now rewrite Hc.
      * intros fuel Hf. assert (fuel = 0%nat) as -> by lia. reflexivity.
      * rewrite steps_body. lia.
      * rewrite timeElapsed_body. rewrite Qnat_S, Qnat_0. halves.
      * unfold continueSimulation in Hc. rewrite timeElapsed_body in *.
        destruct (Qle_bool (timeElapsed st + dt) (timeRecord + dt / 2)) eqn:E;
          [discriminate Hc |].
        apply Qnot_le_lt. intro Hle. apply Qle_bool_iff in Hle. congruence.
      * rewrite timeElapsed_body. halves.
Qed.

(** X13.  Without animation and with a positive time step the simulation
    loop ends: it takes a fixed number [n >= 1] of steps, the first number
    with [n * simTimeStep] beyond [timeRecord + simTimeStep / 2], so the
    simulated time overshoots the recording time by more than half a step
    and at most a step and a half.  [n] passes of the loop are needed and
    suffice. *)
Theorem simulation_ends_after_the_horizon outf :
  0 < dt ->
  exists n st,
    (1 <= n)%nat /\
    (forall fuel, (n <= fuel)%nat ->
       simulate fuel false outf device dt start = Some st) /\
    (forall fuel, (fuel < n)%nat ->
       simulate fuel false outf device dt start = None) /\
    steps st = n /\
    timeElapsed st == Qnat n * dt /\
    timeRecord + dt / 2 < timeElapsed st <= timeRecord + 3 * dt / 2.
Proof.
  intro Hdt.
  destruct (Qnat_above ((timeRecord + dt / 2) / dt)) as [b Hb].
  destruct (simulate_ends outf Hdt b start) as (n & st & Hn & Hsome & Hnone & Hs & Ht & Hlo & Hhi).
  - cbn [timeElapsed start]. unfold timeRecord. halves.
  - cbn [timeElapsed start].
    assert (H : (timeRecord + dt / 2) / dt * dt < Qnat (S b) * dt)
      by (apply Qmult_lt_compat_r; assumption).
    assert (E : (timeRecord + dt / 2) / dt * dt == timeRecord + dt / 2)
      by (field; lra).
    halves.
  - exists n, st. split; [lia |]. split; [exact Hsome |].
    split; [exact Hnone |]. split; [exact Hs |].
    split; [rewrite Ht; cbn [timeElapsed start]; ring |].
    split; assumption.
Qed.

(** X14.  Without animation, a time step that is zero or negative never
    ends the loop: the time never passes [timeRecord + simTimeStep / 2]. *)
Theorem simulation_never_ends outf :
  dt <= 0 ->
  forall fuel, simulate fuel false outf device dt start = None.
Proof.
  intros Hdt fuel.
  assert (H : forall st, timeElapsed st <= 0 ->
                         simulate fuel false outf device dt st = None).
  { induction fuel as [| fuel IH]; intros st Hst; [reflexivity |].
    cbn [simulate].
    assert (Hc : continueSimulation false device dt (body outf dt st) = true).
    { unfold continueSimulation. rewrite timeElapsed_body.
      apply Qle_bool_iff. unfold timeRecord. halves. }
    rewrite Hc. apply IH. rewrite timeElapsed_body. halves. }
  apply H. cbn. halves.
Qed.


(** What one pass through the body does to the rows. *)
Lemma write_row_cases outf st :
  (outf = true /\ timeElapsed st <= timeRecord + dt / 2 /\
   lastPrint st + printTimeStep <= timeElapsed st + dt / 2 /\
   rows (body outf dt st) = rows st ++ [timeElapsed st] /\
   lastPrint (body outf dt st) = lastPrint st + printTimeStep) \/
  ((outf = false \/ ~ timeElapsed st <= timeRecord + dt / 2 \/
    ~ lastPrint st + printTimeStep <= timeElapsed st + dt / 2) /\
   rows (body outf dt st) = rows st /\
   lastPrint (body outf dt st) = lastPrint st).
Proof.
  unfold body, advance, report_recorded, write_row.
  destruct outf; cbn [andb].
  - destruct (Qle_bool (timeElapsed st) (timeRecord + dt / 2)) eqn:E1;
      cbn [andb].
    + destruct (Qle_bool (lastPrint st + printTimeStep)
                  (timeElapsed st + dt / 2)) eqn:E2.
      * left. apply Qle_bool_iff in E1, E2.
        repeat split; try assumption;
          match goal with |- context [if ?c then _ else _] => destruct c end;
          reflexivity.
      * right. split.
        { right. right. intro H. apply Qle_bool_iff in H. congruence. }
        split; match goal with |- context [if ?c then _ else _] => destruct c end;
          reflexivity.
    + right. split.
      { right. left. intro H. apply Qle_bool_iff in H. congruence. }
      split; match goal with |- context [if ?c then _ else _] => destruct c end;
        reflexivity.
  - right. split; [now left |].
    split; match goal with |- context [if ?c then _ else _] => destruct c end;
      reflexivity.
Qed.





(** The body treats the time, the messages and the steps alike whether the
    file is valid or not. *)
Lemma progress_body outf outf' st st' :
  progress st = progress st' ->
  progress (body outf dt st) = progress (body outf' dt st').
Proof.
  unfold progress. intro H. injection H as Ht Hm Hs.
  assert (E : forall o s, progress (body o dt s)
                = (timeElapsed s + dt,
                   if Qle_bool (timeRecord - dt / 2) (timeElapsed s)
                      && Qle_bool (timeElapsed s) (timeRecord + dt / 2)
                   then S (messages s) else messages s,
                   S (steps s))).
  { intros o s. unfold progress, body, advance, report_recorded, write_row.
    destruct (o && Qle_bool (timeElapsed s) (timeRecord + dt / 2)
              && Qle_bool (lastPrint s + printTimeStep) (timeElapsed s + dt / 2));
      cbn [timeElapsed messages steps];
      destruct (Qle_bool (timeRecord - dt / 2) (timeElapsed s)
                && Qle_bool (timeElapsed s) (timeRecord + dt / 2));
      reflexivity. }
  fold (progress (body outf dt st)). fold (progress (body outf' dt st')).
  rewrite !E, Ht, Hm, Hs. reflexivity.
Qed.

(** X17.  An invalid output file does not stop the test: the loop takes
    the same steps, reaches the same time and prints the same closing
    messages as with a valid file, ends or not with the same fuel, and
    writes no row. *)
Theorem invalid_file_writes_nothing animate fuel :
  option_map progress (simulate fuel animate false device dt start)
  = option_map progress (simulate fuel animate true device dt start) /\
  (forall st, simulate fuel animate false device dt start = Some st ->
              rows st = [] /\ lastPrint st = - printTimeStep).
Proof.
  split.
  - assert (H : forall s s', progress s = progress s' ->
              option_map progress (simulate fuel animate false device dt s)
              = option_map progress (simulate fuel animate true device dt s')).
    { induction fuel as [| n IH]; intros s s' Hp; [reflexivity |].
      cbn [simulate].
      pose proof (progress_body false true s s' Hp) as Hb.
      assert (Hc : continueSimulation animate device dt (body false dt s)
                   = continueSimulation animate device dt (body true dt s')).
      { pose proof (f_equal (fun x => fst (fst x)) Hb) as Ht.
        pose proof (f_equal snd Hb) as Hs.
        cbn [progress fst snd] in Ht, Hs.
        unfold continueSimulation. now rewrite Ht, Hs. }
      rewrite Hc.
      destruct (continueSimulation animate device dt (body true dt s')).
      - now apply IH.
      - cbn [option_map]. now rewrite Hb. }
    now apply H.
  - intros st H.
    apply (simulate_rule animate false
             (fun s => rows s = [] /\ lastPrint s = - printTimeStep)
             (fun s => rows s = [] /\ lastPrint s = - printTimeStep))
      with (fuel := fuel) (st := start); [| split; reflexivity | exact H].
    intros s [Hr Hl].
    destruct (write_row_cases false s)
      as [(Hf & _) | (_ & -> & ->)]; [discriminate Hf |].
    destruct (continueSimulation animate device dt (body false dt s));
      split; assumption.
Qed.







(** X20.  The exit code of [main] is 0 exactly when both output
    directories could be made.  Otherwise it is 1 and no test case was
    started.  When it is 0, two cases were started, both with time step
    0.001 and animated exactly when [argc > 1]: no result of a simulation
    reaches the exit code. *)
Theorem main_exit_code (argc made_VALIDATION made_SPHERICAL_JOINT : Z) :
  (snd (main argc made_VALIDATION made_SPHERICAL_JOINT) = 0%Z
   <-> (0 <= made_VALIDATION)%Z /\ (0 <= made_SPHERICAL_JOINT)%Z) /\
  (snd (main argc made_VALIDATION made_SPHERICAL_JOINT) <> 0%Z ->
   main argc made_VALIDATION made_SPHERICAL_JOINT = ([], 1%Z)) /\
  (snd (main argc made_VALIDATION made_SPHERICAL_JOINT) = 0%Z ->
   map simTimeStep (fst (main argc made_VALIDATION made_SPHERICAL_JOINT))
   = [0.001; 0.001] /\
   map animate (fst (main argc made_VALIDATION made_SPHERICAL_JOINT))
   = [(1 <? argc)%Z; (1 <? argc)%Z]).
Proof.
  unfold main.
  destruct (Z.ltb_spec made_VALIDATION 0);
    [| destruct (Z.ltb_spec made_SPHERICAL_JOINT 0)]; cbn [fst snd map negb].
  - split; [split; [discriminate | lia] |]. split; [reflexivity | discriminate].
  - split; [split; [discriminate | lia] |]. split; [reflexivity | discriminate].
  - split; [split; [lia | reflexivity] |].
    split; [intro Hn; now elim Hn | intros _; split; reflexivity].
Qed.

End LoopProperties.

(** X13 at the time step of [main]: the loop of a run that is not animated
    takes exactly 5001 steps. *)
Lemma simulation_ends_after_the_horizon_witness :
  0 < 0.001 /\
  exists st,
    SphericalTest.simulate 5001 false true (fun _ => true) 0.001
      SphericalTest.start = Some st /\
    SphericalTest.steps st = 5001%nat.
Proof.
  split; [reflexivity |].
  destruct (simulation_ends_after_the_horizon (fun _ => true) 0.001 true eq_refl)
    as (n & st & _ & Hsome & _ & Hs & Ht & Hlo & Hhi).
  assert (En : n = Z.to_nat 5001).
  { rewrite Ht in Hlo, Hhi.
    assert (H1 : 5000 < SphericalTest.Qnat n) by halves.
    assert (H2 : SphericalTest.Qnat n < 5002) by halves.
    change 5000 with (inject_Z 5000) in H1.
    change 5002 with (inject_Z 5002) in H2.
    unfold SphericalTest.Qnat in H1, H2.
    rewrite <- Zlt_Qlt in H1, H2. lia. }
  exists st. split.
  - apply Hsome. rewrite En. vm_compute. apply le_n.
  - rewrite Hs, En. vm_compute. reflexivity.
Defined.

(** X14 at the time step 0. *)
Lemma simulation_never_ends_witness :
  0 <= 0 /\
  SphericalTest.simulate 3 false true (fun _ => true) 0 SphericalTest.start = None.
Proof.
  split; [apply Qle_refl |].
  exact (simulation_never_ends (fun _ => true) 0 true (Qle_refl 0) 3%nat).
Defined.




(** * The runs of [main] on doubles *)

(** X21.  On binary64 doubles the runs that [main] starts without
    animation (time step 0.001; the accumulated time drifts from the
    multiples of the step) behave as in exact arithmetic: the loop ends
    after exactly 5001 steps, the closing message is printed once, and a
    valid file receives 5001 rows, the last one at a time within 1e-14 of
    [timeRecord]; an invalid file receives none. *)
Theorem main_runs_on_binary64 (device : nat -> bool) (outf : bool) :
  option_map
    (fun st => (SphericalTest64.steps st, SphericalTest64.messages st,
                length (SphericalTest64.rows st)))
    (SphericalTest64.simulate 5001 false outf device 0.001
       SphericalTest64.start)
  = Some (5001, 1, if outf then 5001 else 0)%nat /\
  SphericalTest64.simulate 5000 false outf device 0.001 SphericalTest64.start
  = None /\
  (outf = true ->
   option_map
     (fun st =>
        let t := last (SphericalTest64.rows st) 0%float in
        PrimFloat.leb 5 t && PrimFloat.leb t (5 + 1e-14))
     (SphericalTest64.simulate 5001 false outf device 0.001
        SphericalTest64.start)
   = Some true).
Proof.
  destruct outf.
  - split; [vm_compute; reflexivity |]. split; [vm_compute; reflexivity |].
    intros _. vm_compute. reflexivity.
  - split; [vm_compute; reflexivity |]. split; [vm_compute; reflexivity |].
    discriminate.
Qed.
